(** * Article scraper: extraction rules and pipeline drivers

    A shallow embedding of the three scripts of the repository
    ([web scraping/webScraping.py], [webScraping3.py]: fetch, stage every
    page in a file, then parse the files; [webScraping2.py]: fetch and parse
    in memory), with the properties their description states.

    Python text is a sequence of code points; the regular expressions are
    kept as syntax and run by a backtracking matcher with Python's greedy
    semantics; the parsed document is a tree of tags and strings as
    BeautifulSoup builds it; the working directory is a finite map from
    file names to what the files hold, written and read as UTF-8 text. *)

From Stdlib Require Import NArith String Ascii DecimalString.
From Stdlib Require DecimalNat DecimalFacts.
From stdpp Require Import gmap list fin_maps strings.

#[local] Set Warnings "-register-all".

Local Open Scope N_scope.
Local Open Scope list_scope.

(** ** Python text *)

Module Py.

(** A [str] is a list of code points. *)
Abbreviation str := (list N).

(** A literal of the source, code point by code point. *)
Definition lit (s : string) : str :=
  List.map N_of_ascii (String.list_ascii_of_string s).

(** [str.isspace] on one character; this is also the class [\s] of [re] on
    text patterns, and what [str.strip] removes. *)
Definition isspace (c : N) : bool :=
  ((9 <=? c) && (c <=? 13)) || ((28 <=? c) && (c <=? 32))
  || (c =? 133) || (c =? 160) || (c =? 5760)
  || ((8192 <=? c) && (c <=? 8202))
  || (c =? 8232) || (c =? 8233) || (c =? 8239) || (c =? 8287)
  || (c =? 12288).

(** [s.startswith(p)] and [s.endswith(p)]. *)
Definition startswith (s p : str) : bool := bool_decide (p `prefix_of` s).
Definition endswith (s p : str) : bool := bool_decide (p `suffix_of` s).

(** [p in s]: [p] occurs in [s] as a contiguous slice. *)
Fixpoint contains (s p : str) : bool :=
  startswith s p ||
  match s with
  | [] => false
  | _ :: s' => contains s' p
  end.

(** [s.lstrip()], [s.rstrip()], [s.strip()]. *)
Fixpoint lstrip (s : str) : str :=
  match s with
  | c :: s' => if isspace c then lstrip s' else s
  | [] => []
  end.

Definition rstrip (s : str) : str := reverse (lstrip (reverse s)).

Definition strip (s : str) : str := rstrip (lstrip s).

(** [sep.join(l)]. *)
Fixpoint join (sep : str) (l : list str) : str :=
  match l with
  | [] => []
  | [x] => x
  | x :: l' => x ++ sep ++ join sep l'
  end.

(** [s.split(c, 1)] for a one-character separator: at most one cut, at the
    first occurrence. *)
Fixpoint split1 (c : N) (s : str) : list str :=
  match s with
  | [] => [[]]
  | x :: s' =>
      if x =? c then [[]; s']
      else match split1 c s' with
           | h :: t => (x :: h) :: t
           | [] => [[x]]
           end
  end.

(** Truth value of an optional text: [None] and the empty text are false. *)
Definition truthy (o : option str) : bool :=
  match o with
  | Some (_ :: _) => true
  | _ => false
  end.

(** [str(i)] for a natural number, as an f-string prints it. *)
Definition str_of_nat (i : nat) : str :=
  lit (NilZero.string_of_uint (Nat.to_uint i)).

(** What a call can raise.  The encoding and decoding errors are those of
    text files opened with [encoding='utf-8']. *)
Inductive exn :=
| IndexError
| FileNotFoundError
| UnicodeDecodeError
| UnicodeEncodeError
| PlaywrightError (msg : str).

Inductive result (A : Type) :=
| Ok (a : A)
| Raise (e : exn).
Arguments Ok {A} a.
Arguments Raise {A} e.

(** [l[i]] on a list. *)
Definition index {A} (l : list A) (i : nat) : result A :=
  match l !! i with
  | Some x => Ok x
  | None => Raise IndexError
  end.

End Py.

(** ** The fragment of [re] the scripts use *)

Module Re.
Import Py.

(** One-character classes: a literal, [\s], [[^\s]], [[^c]]. *)
Inductive cclass :=
| Chr (c : N)
| Space
| NotSpace
| NotChr (c : N).

Inductive quant := Once | Star | Plus.

(** A pattern is a sequence of quantified classes and group parentheses. *)
Inductive atom :=
| Cls (q : quant) (k : cclass)
| GroupOpen
| GroupClose.

Abbreviation regex := (list atom).

Definition in_class (k : cclass) (c : N) : bool :=
  match k with
  | Chr x => c =? x
  | Space => isspace c
  | NotSpace => negb (isspace c)
  | NotChr x => negb (c =? x)
  end.

(** A match: how many characters it covers, and the offsets (from its start)
    at which the group parentheses were passed, in pattern order. *)
Definition mres : Type := nat * list nat.

Definition shift (r : mres) : mres := (S (fst r), List.map S (snd r)).

Definition mark (r : mres) : mres := (fst r, O :: snd r).

(** Greedy repetition of a class, then the rest of the pattern [cont]: take
    one more character when that leads to a match, else stop here. *)
Fixpoint star (k : cclass) (cont : str -> option mres) (s : str)
  : option mres :=
  match s with
  | c :: s' =>
      if in_class k c then
        match star k cont s' with
        | Some r => Some (shift r)
        | None => cont s
        end
      else cont s
  | [] => cont s
  end.

(** The pattern matched at the start of [s]. *)
Fixpoint match_here (p : regex) (s : str) : option mres :=
  match p with
  | [] => Some (O, [])
  | Cls Once k :: p' =>
      match s with
      | c :: s' => if in_class k c then shift <$> match_here p' s' else None
      | [] => None
      end
  | Cls Star k :: p' => star k (match_here p') s
  | Cls Plus k :: p' =>
      match s with
      | c :: s' =>
          if in_class k c then shift <$> star k (match_here p') s' else None
      | [] => None
      end
  | GroupOpen :: p' => mark <$> match_here p' s
  | GroupClose :: p' => mark <$> match_here p' s
  end.

(** [re.search(p, s)]: the match at the leftmost position that has one,
    with that position. *)
Fixpoint search (p : regex) (s : str) : option (nat * mres) :=
  match match_here p s with
  | Some r => Some (O, r)
  | None =>
      match s with
      | [] => None
      | _ :: s' => prod_map S id <$> search p s'
      end
  end.

(** [m.group(1)] of [m = re.search(p, s)]. *)
Definition group1 (p : regex) (s : str) : option str :=
  match search p s with
  | Some (i, (_, a :: b :: _)) => Some (take (b - a) (drop (i + a) s))
  | _ => None
  end.

(** [re.sub(p, repl, s)] for a literal replacement: matches are taken left
    to right and do not overlap; [skip] counts the characters of the current
    match still to pass over.  (The patterns of the scripts cover at least
    one character; a match of none puts the replacement in front of the
    character.) *)
Fixpoint sub_from (p : regex) (repl : str) (skip : nat) (s : str) : str :=
  match s with
  | [] =>
      match skip, match_here p [] with
      | O, Some _ => repl
      | _, _ => []
      end
  | c :: s' =>
      match skip with
      | S k => sub_from p repl k s'
      | O =>
          match match_here p s with
          | Some (S k, _) => repl ++ sub_from p repl k s'
          | Some (O, _) => repl ++ c :: sub_from p repl O s'
          | None => c :: sub_from p repl O s'
          end
      end
  end.

Definition sub (p : regex) (repl s : str) : str := sub_from p repl O s.

(** A literal piece of a pattern. *)
Definition chars (s : string) : regex :=
  List.map (fun c => Cls Once (Chr c)) (lit s).

End Re.

Import Py Re.

(** ** The patterns of the scripts *)

(** [r'\s*email:[^\s]+'] *)
Definition email_re : regex :=
  [Cls Star Space] ++ chars "email:" ++ [Cls Plus NotSpace].

(** [r'\s*\('] *)
Definition open_paren_re : regex := [Cls Star Space] ++ chars "(".

(** [r'\)\s*'] *)
Definition close_paren_re : regex := chars ")" ++ [Cls Star Space].

(** [r"doi\s*:\s*'([^']+)'"] *)
Definition doi_re : regex :=
  chars "doi" ++ [Cls Star Space] ++ chars ":" ++ [Cls Star Space]
  ++ chars "'" ++ [GroupOpen; Cls Plus (NotChr 39); GroupClose] ++ chars "'".

(** The three substitutions on an authors text, in the order of the source. *)
Definition clean_authors (authors : str) : str :=
  let authors := sub email_re (lit ".") authors in
  let authors := sub open_paren_re (lit ".") authors in
  sub close_paren_re (lit ".") authors.

(** [email:] followed by a character that is not a space occurs in [s]. *)
Fixpoint has_email_token (s : str) : bool :=
  (startswith s (lit "email:") &&
   match drop 6 s with
   | c :: _ => negb (isspace c)
   | [] => false
   end)
  || match s with
     | [] => false
     | _ :: s' => has_email_token s'
     end.

(** ** The parsed document *)

Module Soup.

(** The classes of strings BeautifulSoup puts in the tree.  [get_text] of an
    ordinary tag reads the first two only. *)
Inductive strkind :=
| NavigableString
| CData
| Comment
| Script
| Stylesheet
| TemplateString
| Special.

(** A tag with its attribute dictionary and children, or a string.  An
    attribute is kept as the text written in the markup; [class] is read as
    its whitespace-separated tokens. *)
Inductive node :=
| Tag (name : str) (attrs : gmap str str) (contents : list node)
| Text (kind : strkind) (s : str).

(** [tag.descendants]: everything below a tag, in document order. *)
Fixpoint descendants (n : node) : list node :=
  match n with
  | Tag _ _ contents => flat_map (fun c => c :: descendants c) contents
  | Text _ _ => []
  end.

(** [tag.find_all(name, ...)] with a test on the attributes, and [find], its
    first result. *)
Definition is_tag (name : str) (test : gmap str str -> bool) (n : node) : bool :=
  match n with
  | Tag nm attrs _ => bool_decide (nm = name) && test attrs
  | Text _ _ => false
  end.

Definition find_all (name : str) (test : gmap str str -> bool) (n : node)
  : list node :=
  List.filter (is_tag name test) (descendants n).

Definition find (name : str) (test : gmap str str -> bool) (n : node)
  : option node :=
  head (find_all name test n).

(** [attrs={key: value}], also [id='...'] and [role='...']: the attribute is
    there with exactly this value. *)
Definition attr_is (key value : str) (attrs : gmap str str) : bool :=
  bool_decide (attrs !! key = Some value).

(** The tokens of a multi-valued attribute: its runs of non-space. *)
Fixpoint tokens_from (cur : str) (s : str) : list str :=
  match s with
  | [] => match cur with [] => [] | _ => [reverse cur] end
  | c :: s' =>
      if isspace c then
        match cur with
        | [] => tokens_from [] s'
        | _ => reverse cur :: tokens_from [] s'
        end
      else tokens_from (c :: cur) s'
  end.

(** [class_='...']: one of the classes of the tag is this one. *)
Definition has_class (cls : str) (attrs : gmap str str) : bool :=
  match attrs !! lit "class" with
  | Some v => bool_decide (cls ∈ tokens_from [] v)
  | None => false
  end.

Definition any_attrs (attrs : gmap str str) : bool := true.

(** [tag.get_text()] and [tag.get_text(strip=True)] on an ordinary tag (the
    scripts call it on [div] and [b]): the strings below it, comments,
    script and style text left out; with [strip], each one stripped and
    dropped when nothing is left; all put together without separator. *)
Definition interesting (k : strkind) : bool :=
  match k with
  | NavigableString | CData => true
  | _ => false
  end.

Definition all_strings (strip : bool) (n : node) : list str :=
  flat_map (fun d =>
    match d with
    | Text k s =>
        if interesting k then
          if strip then
            match Py.strip s with
            | [] => []
            | s' => [s']
            end
          else [s]
        else []
    | Tag _ _ _ => []
    end) (descendants n).

Definition get_text (strip : bool) (n : node) : str :=
  concat (all_strings strip n).

(** [tag.string]: the only child when it is a string, or the [string] of an
    only child tag. *)
Fixpoint tag_string (n : node) : option str :=
  match n with
  | Tag _ _ [c] =>
      match c with
      | Text _ s => Some s
      | Tag _ _ _ => tag_string c
      end
  | _ => None
  end.

End Soup.

Import Soup.

(** ** The record of one article *)

Record ArticleRecord := {
  Title : option str;
  Authors : option str;
  Publication_date : option str;
  DOI : option str;
  Abstract : option str;
}.

(** ** Extraction rules shared by the scripts *)

Definition title_marker : str := lit "dc.Title".
Definition author_prefix : str := lit "corresp1-".
Definition date_marker : str := lit "Article first published online".
Definition doi_marker : str := lit "var journalAdParams =".

(** [lambda x: x and x.startswith('corresp1-')] on the [id] of a tag. *)
Definition author_id (attrs : gmap str str) : bool :=
  match attrs !! lit "id" with
  | Some x => truthy (Some x) && startswith x author_prefix
  | None => false
  end.

Definition author_divs (soup : node) : list node :=
  find_all (lit "div") author_id soup.

(** The title: the [content] of the first [meta] tag named [dc.Title]. *)
Definition title_of (soup : node) : option str :=
  match find (lit "meta") (attr_is (lit "name") title_marker) soup with
  | Some (Tag _ attrs _) => attrs !! lit "content"
  | _ => None
  end.

(** The test of the date loop on one [div] of the history block. *)
Definition date_label (div : node) : bool :=
  match find (lit "b") (has_class (lit "core-label")) div with
  | Some label => contains (get_text false label) date_marker
  | None => false
  end.

(** [div.get_text(strip=True).split(':', 1)[1].strip()] *)
Definition date_text (div : node) : result str :=
  match index (split1 58 (get_text true div)) 1 with
  | Ok s => Ok (strip s)
  | Raise e => Raise e
  end.

Definition history_divs (soup : node) : list node :=
  match find (lit "div") (has_class (lit "core-history")) soup with
  | Some core_history_div => find_all (lit "div") any_attrs core_history_div
  | None => []
  end.

(** The test of the DOI loop on one [script] tag, and the match it yields. *)
Definition doi_script (script : node) : bool :=
  match tag_string script with
  | Some s => truthy (Some s) && contains s doi_marker
  | None => false
  end.

Definition doi_match (script : node) : option str :=
  match tag_string script with
  | Some s => group1 doi_re s
  | None => None
  end.

Definition script_tags (soup : node) : list node :=
  find_all (lit "script") any_attrs soup.

(** The abstract: the text of the first [div] with [role="paragraph"] inside
    the first [section] with [id="abstract"]. *)
Definition abstract_of (soup : node) : option str :=
  match find (lit "section") (attr_is (lit "id") (lit "abstract")) soup with
  | Some abstract_section =>
      match find (lit "div") (attr_is (lit "role") (lit "paragraph"))
              abstract_section with
      | Some abstract_div => Some (get_text true abstract_div)
      | None => None
      end
  | None => None
  end.

(** ** Errors, and the working directory as state *)

Module Os.

#[global] Instance result_ret : MRet result := @Ok.

#[global] Instance result_bind : MBind result :=
  fun A B f r =>
    match r with
    | Ok a => f a
    | Raise e => Raise e
    end.

#[global] Instance result_fmap : FMap result :=
  fun A B f r =>
    match r with
    | Ok a => Ok (f a)
    | Raise e => Raise e
    end.

(** What a plain file of the working directory holds: the UTF-8 encoding
    of a text (a text that can be encoded, in a directory that stands for
    one on disk), or bytes that are not the UTF-8 encoding of any text. *)
Inductive entry :=
| Utf8 (text : str)
| NotUtf8.

(** The code points UTF-8 encodes: all but the surrogates. *)
Definition encodable (c : N) : bool :=
  (c <? 55296) || ((57343 <? c) && (c <=? 1114111)).

(** What a text-mode read makes of the line ends (the default
    [newline=None]): a carriage return, with the line feed that follows it
    if there is one, is read as one line feed. *)
Fixpoint universal_newlines (s : str) : str :=
  match s with
  | [] => []
  | c :: s' =>
      if c =? 13 then
        10 :: match s' with
              | [] => []
              | c' :: s'' =>
                  if c' =? 10 then universal_newlines s''
                  else universal_newlines s'
              end
      else c :: universal_newlines s'
  end.

(** A computation on the working directory: the directory it leaves, and
    its value or the exception that stopped it.  The files written before an
    exception stay written.  The directory holds plain files, by name; the
    failures of the medium itself (rights, space) are left out. *)
Definition M (A : Type) : Type := gmap str entry -> gmap str entry * result A.

#[global] Instance M_ret : MRet M := fun A a d => (d, Ok a).

#[global] Instance M_bind : MBind M :=
  fun A B f m d =>
    match m d with
    | (d', Ok a) => f a d'
    | (d', Raise e) => (d', Raise e)
    end.

Definition lift {A} (r : result A) : M A := fun d => (d, r).

(** [os.path.join(a, b)] *)
Definition path_join (a b : str) : str :=
  if startswith b (lit "/") then b
  else if bool_decide (a = []) || endswith a (lit "/") then a ++ b
  else a ++ lit "/" ++ b.

(** The name in the working directory a relative path stands for. *)
Definition resolve (path : str) : str :=
  if startswith path (lit "./") then drop 2 path else path.

(** [open(path, 'r', encoding='utf-8')], read whole: the bytes are decoded
    and the line ends translated. *)
Definition open_read (path : str) : M str :=
  fun d =>
    match d !! resolve path with
    | Some (Utf8 text) => (d, Ok (universal_newlines text))
    | Some NotUtf8 => (d, Raise UnicodeDecodeError)
    | None => (d, Raise FileNotFoundError)
    end.

(** [open(path, 'w', encoding='utf-8')] and [file.write(text)]: the file is
    created or emptied when it is opened, before the text is encoded; a
    text with a surrogate is refused as a whole.  Line feeds are written as
    they are (the line separator of the system is the line feed). *)
Definition open_write (path text : str) : M unit :=
  fun d =>
    if forallb encodable text then (<[resolve path := Utf8 text]> d, Ok tt)
    else (<[resolve path := Utf8 []]> d, Raise UnicodeEncodeError).

(** [os.remove(path)] *)
Definition remove (path : str) : M unit :=
  fun d =>
    match d !! resolve path with
    | Some _ => (delete (resolve path) d, Ok tt)
    | None => (d, Raise FileNotFoundError)
    end.

End Os.

Import Os.

(** ** What the scripts get from outside *)

(** A rendered page: its document, for selector queries, and its
    [content()], the markup as text. *)
Record page := {
  page_dom : node;
  content : str;
}.

(** The table handed to the exporter. *)
Record table := {
  columns : list str;
  rows : list (list (option str));
}.

(** The renderer, the markup parser, the directory listing of the operating
    system and the serializer of the table library. *)
Class Collaborators := {
  (** [new_page], [goto(url)], [wait_for_load_state('networkidle')]:
      the page, or the error of the navigation; the same at every visit of
      an address during a run *)
  goto : str -> result page;
  (** [BeautifulSoup(text, 'html.parser')] *)
  BeautifulSoup : str -> node;
  (** [os.listdir('.')] on a directory; the order is the system's *)
  listdir : gmap str entry -> list str;
  (** [DataFrame.to_csv(index=False)] as text *)
  to_csv : table -> str;
  (** what the exporter has written of a table when a cell it cannot
      encode stops it *)
  to_csv_partial : table -> str;
}.

(** [os.listdir] lists each file once, and nothing else. *)
Definition listdir_spec `{Collaborators} : Prop :=
  forall d : gmap str entry,
    NoDup (listdir d) /\ forall f, f ∈ listdir d <-> is_Some (d !! f).

(** ** Parts the three scripts share *)

Definition base_url : str := lit "https://journals.sagepub.com".
Definition toc_url : str := lit "https://journals.sagepub.com/toc/JMX/current".
Definition csv_path : str := lit "scraped_data.csv".

(** [a[href^="/doi/abs/"]] *)
Definition doi_anchor (n : node) : bool :=
  is_tag (lit "a")
    (fun attrs =>
       match attrs !! lit "href" with
       | Some h => startswith h (lit "/doi/abs/")
       | None => false
       end) n.

Definition query_selector_all (p : page) : list node :=
  List.filter doi_anchor (descendants (page_dom p)).

Definition get_attribute (key : str) (n : node) : option str :=
  match n with
  | Tag _ attrs _ => attrs !! key
  | Text _ _ => None
  end.

(** The selected anchors all have an [href]. *)
Definition extract_links (p : page) : list str :=
  omap (get_attribute (lit "href")) (query_selector_all p).

Definition column_names : list str :=
  [lit "Title"; lit "Authors With Their Affliations"; lit "Publication_date";
   lit "DOI"; lit "Abstract"].

Definition values (r : ArticleRecord) : list (option str) :=
  [Title r; Authors r; Publication_date r; DOI r; Abstract r].

(** [pd.DataFrame(data)] on a list of records: the columns are the keys of
    the records, so there is none when there is no record. *)
Definition DataFrame (data : list ArticleRecord) : table :=
  {| columns := match data with [] => [] | _ :: _ => column_names end;
     rows := values <$> data |}.

(** Every column name and every cell of the table can be encoded. *)
Definition table_encodable (t : table) : bool :=
  forallb (forallb encodable) (columns t)
  && forallb (forallb (fun cell => forallb encodable (default [] cell)))
       (rows t).

(** [df.to_csv('scraped_data.csv', index=False)]: the file is created or
    emptied when the exporter opens it; a table with a surrogate stops the
    exporter with part of the text written. *)
Definition export `{Collaborators} (df : table) : M unit :=
  fun d =>
    if table_encodable df then
      (<[csv_path := Utf8 (to_csv df)]> d, Ok tt)
    else
      (<[csv_path := Utf8 (to_csv_partial df)]> d, Raise UnicodeEncodeError).


(** [data.append(r)] under [if title:]. *)
Definition append_if_title (data : list ArticleRecord) (r : ArticleRecord)
  : list ArticleRecord :=
  if truthy (Title r) then data ++ [r] else data.

(** ** Fetch, stage in files, then parse ([webScraping.py], [webScraping3.py]) *)

Module Staging.
Section Script.
Context `{Collaborators}.

Definition html_directory : str := lit ".".

Definition process_page (url : str) : M str := lift (content <$> goto url).

Definition open_soup (file_path : str) : M node :=
  file ← open_read file_path; mret (BeautifulSoup file).

Definition extract_title_from_html (file_path : str) : M (option str) :=
  soup ← open_soup file_path; mret (title_of soup).

(** Each text is cleaned on its own, then the cleaned texts are joined. *)
Definition authors_of (soup : node) : option str :=
  let authors := get_text true <$> author_divs soup in
  let authors_cleaned := sub email_re (lit ".") <$> authors in
  let authors_cleaned := sub open_paren_re (lit ".") <$> authors_cleaned in
  let authors_cleaned := sub close_paren_re (lit ".") <$> authors_cleaned in
  match authors_cleaned with
  | [] => None
  | _ :: _ => Some (join (lit " ") authors_cleaned)
  end.

Definition extract_authors_from_html (file_path : str) : M (option str) :=
  soup ← open_soup file_path; mret (authors_of soup).

(** The loop returns at the first [div] that has the label. *)
Fixpoint date_loop (divs : list node) : result (option str) :=
  match divs with
  | [] => Ok None
  | div :: rest =>
      if date_label div then Some <$> date_text div else date_loop rest
  end.

Definition publication_date_of (soup : node) : result (option str) :=
  date_loop (history_divs soup).

Definition extract_publication_date_from_html (file_path : str)
  : M (option str) :=
  soup ← open_soup file_path; lift (publication_date_of soup).

(** The loop returns at the first [script] where the pattern matches. *)
Fixpoint doi_loop (scripts : list node) : option str :=
  match scripts with
  | [] => None
  | script :: rest =>
      if doi_script script then
        match doi_match script with
        | Some doi => Some doi
        | None => doi_loop rest
        end
      else doi_loop rest
  end.

Definition doi_of (soup : node) : option str := doi_loop (script_tags soup).

Definition extract_doi_from_html (file_path : str) : M (option str) :=
  soup ← open_soup file_path; mret (doi_of soup).

Definition extract_abstract_from_html (file_path : str) : M (option str) :=
  soup ← open_soup file_path; mret (abstract_of soup).

(** First loop of [main]: page [i] goes to [page_i.html]. *)
Definition page_file (i : nat) : str :=
  lit "page_" ++ str_of_nat i ++ lit ".html".

Fixpoint stage (i : nat) (hrefs : list str) : M unit :=
  match hrefs with
  | [] => mret tt
  | href :: rest =>
      let full_url := base_url ++ href in
      html_content ← process_page full_url;
      open_write (page_file i) html_content;;
      stage (S i) rest
  end.

(** Body of the second loop of [main] on one listed name. *)
Definition extract_file (filename : str) (data : list ArticleRecord)
  : M (list ArticleRecord) :=
  if endswith filename (lit ".html") then
    let file_path := path_join html_directory filename in
    title ← extract_title_from_html file_path;
    authors ← extract_authors_from_html file_path;
    publication_date ← extract_publication_date_from_html file_path;
    doi ← extract_doi_from_html file_path;
    abstract ← extract_abstract_from_html file_path;
    let data :=
      append_if_title data
        {| Title := title; Authors := authors;
           Publication_date := publication_date; DOI := doi;
           Abstract := abstract |} in
    remove file_path;;
    mret data
  else mret data.

Fixpoint extract_files (names : list str) (data : list ArticleRecord)
  : M (list ArticleRecord) :=
  match names with
  | [] => mret data
  | filename :: rest =>
      data ← extract_file filename data; extract_files rest data
  end.

(** [main] up to the list [data] it hands to [pd.DataFrame]. *)
Definition collect : M (list ArticleRecord) :=
  main_page ← lift (goto toc_url);
  let hrefs := extract_links main_page in
  stage 1 hrefs;;
  names ← (fun d => (d, Ok (listdir d)));
  extract_files names [].

Definition main : M unit :=
  data ← collect;
  export (DataFrame data).

End Script.
End Staging.

(** ** What the second loop of the staging script computes *)

(** The record the second loop builds from the five extractions on one
    parsed file; the date extraction is the one that can raise. *)
Definition staged_record (soup : node) : result ArticleRecord :=
  publication_date ← Staging.publication_date_of soup;
  Ok {| Title := title_of soup; Authors := Staging.authors_of soup;
        Publication_date := publication_date; DOI := Staging.doi_of soup;
        Abstract := abstract_of soup |}.

Definition has_title (r : ArticleRecord) : bool := truthy (Title r).

Definition is_html (filename : str) : bool := endswith filename (lit ".html").

(** The directory after the first loop has written the pages [contents],
    the first one under index [i]. *)
Fixpoint staged (i : nat) (contents : list str) (d : gmap str entry)
  : gmap str entry :=
  match contents with
  | [] => d
  | c :: rest => staged (S i) rest (<[Staging.page_file i := Utf8 c]> d)
  end.

(** A script tag on which the DOI loop finds a DOI. *)
Definition doi_hit (script : node) : bool :=
  match doi_match script with
  | Some _ => doi_script script
  | None => false
  end.

(** No [meta] tag named [dc.Title] anywhere in the document. *)
Definition no_title_meta (soup : node) : Prop :=
  Forall (fun n => is_tag (lit "meta") (attr_is (lit "name") title_marker) n
                   = false)
         (descendants soup).

(** ** Fetch and parse in memory ([webScraping2.py]) *)

Module InMemory.
Section Script.
Context `{Collaborators}.

(** The texts are joined, then the joined text is cleaned. *)
Definition authors_of (soup : node) : option str :=
  match author_divs soup with
  | [] => None
  | divs =>
      let authors := join (lit " ") (get_text true <$> divs) in
      Some (clean_authors authors)
  end.

(** The loop goes through every [div]; each one with the label assigns. *)
Fixpoint date_loop (divs : list node) (publication_date : option str)
  : result (option str) :=
  match divs with
  | [] => Ok publication_date
  | div :: rest =>
      if date_label div then
        d ← date_text div; date_loop rest (Some d)
      else date_loop rest publication_date
  end.

(** The loop goes through every [script]; each match assigns. *)
Fixpoint doi_loop (scripts : list node) (doi : option str) : option str :=
  match scripts with
  | [] => doi
  | script :: rest =>
      if doi_script script then
        match doi_match script with
        | Some d => doi_loop rest (Some d)
        | None => doi_loop rest doi
        end
      else doi_loop rest doi
  end.

(** [extract_data_from_html] after the parse. *)
Definition extract_data (soup : node) : result ArticleRecord :=
  let title := title_of soup in
  let authors := authors_of soup in
  publication_date ← date_loop (history_divs soup) None;
  let doi := doi_loop (script_tags soup) None in
  let abstract := abstract_of soup in
  Ok {| Title := title; Authors := authors;
        Publication_date := publication_date; DOI := doi;
        Abstract := abstract |}.

Definition extract_data_from_html (html_content : str) : result ArticleRecord :=
  extract_data (BeautifulSoup html_content).

(** The loop of [main] over the links. *)
Fixpoint visit (hrefs : list str) (data : list ArticleRecord)
  : result (list ArticleRecord) :=
  match hrefs with
  | [] => Ok data
  | href :: rest =>
      let full_url := base_url ++ href in
      page ← goto full_url;
      let html_content := content page in
      article_data ← extract_data_from_html html_content;
      visit rest (append_if_title data article_data)
  end.

(** [main] up to the list [data] it hands to [pd.DataFrame]. *)
Definition collect : result (list ArticleRecord) :=
  main_page ← goto toc_url;
  let hrefs := extract_links main_page in
  visit hrefs [].

Definition main : M unit :=
  data ← lift collect;
  export (DataFrame data).

End Script.
End InMemory.

(** ** Where cleaning and joining commute *)

(** A text that is empty or has a character that is not a space at each of
    its ends, as [get_text(strip=True)] gives it. *)
Definition trimmed (t : str) : Prop :=
  match t with [] => True | c :: _ => isspace c = false end
  /\ match last t with Some c => isspace c = false | None => True end.

(** The text begins with [email:] and a character that is not a space: the
    first pattern matches at its start. *)
Definition email_start (t : str) : bool :=
  startswith t (lit "email:")
  && match drop 6 t with
     | c :: _ => negb (isspace c)
     | [] => false
     end.

(** No substitution can take a joining space with it: no text but the first
    begins with an opening parenthesis or with [email:] and a character
    that is not a space, and no text but the last ends with a closing
    parenthesis. *)
Definition joins_cleanly (texts : list str) : bool :=
  forallb (fun t => negb (startswith t (lit "(")) && negb (email_start t))
    (tail texts)
  && forallb (fun t => negb (endswith t (lit ")"))) (removelast texts).

(** ** Sample documents *)

Module Sample.

Definition attributes (l : list (string * string)) : gmap str str :=
  list_to_map ((fun kv => (lit (fst kv), lit (snd kv))) <$> l).

Definition elem (name : string) (attrs : list (string * string))
    (contents : list node) : node :=
  Tag (lit name) (attributes attrs) contents.

Definition text (s : string) : node := Text NavigableString (lit s).

Definition document (contents : list node) : node :=
  Tag (lit "[document]") ∅ contents.

(** [<script>var journalAdParams = {doi: '10.1177/0025149241234567', other: 1};</script>] *)
Definition doi_script_text : str :=
  lit "var journalAdParams = {doi: '10.1177/0025149241234567', other: 1};".

Definition doi_soup : node :=
  document [elem "script" [] [Text Script doi_script_text]].

(** The tree of
    [<div class='core-history'><div><b class='core-label'>Article first
    published online</b> 5 January 2024</div></div>] (on one line): the
    label is there, the text of the inner [div] has no colon. *)
Definition no_colon_soup : node :=
  document
    [elem "div" [("class", "core-history")]
       [elem "div" []
          [elem "b" [("class", "core-label")]
             [text "Article first published online"];
           text " 5 January 2024"]]].

(** The tree of [<div id='corresp1-1'>Jane Doe (Dept of Y)</div><div
    id='corresp1-2'>John Roe</div>]. *)
Definition two_authors_soup : node :=
  document
    [elem "div" [("id", "corresp1-1")] [text "Jane Doe (Dept of Y)"];
     elem "div" [("id", "corresp1-2")] [text "John Roe"]].

(** The tree of [<div id='corresp1-1'>(Editor) Jane Doe</div><div
    id='corresp1-2'>John Roe (Dept of Y)</div>]. *)
Definition two_plain_authors_soup : node :=
  document
    [elem "div" [("id", "corresp1-1")] [text "(Editor) Jane Doe"];
     elem "div" [("id", "corresp1-2")] [text "John Roe (Dept of Y)"]].

(** The tree of a page with two labelled [div]s in its history block and
    two scripts that carry a DOI:
    [<div class='core-history'><div><b class='core-label'>Article first
    published online: </b>5 January 2024</div><div><b
    class='core-label'>Article first published online: </b>7 March
    2024</div></div><script>var journalAdParams = {doi:
    '10.1177/1'};</script><script>var journalAdParams = {doi:
    '10.1177/2'};</script>]. *)
Definition two_dates_soup : node :=
  document
    [elem "div" [("class", "core-history")]
       [elem "div" []
          [elem "b" [("class", "core-label")]
             [text "Article first published online: "];
           text "5 January 2024"];
        elem "div" []
          [elem "b" [("class", "core-label")]
             [text "Article first published online: "];
           text "7 March 2024"]];
     elem "script" []
       [Text Script (lit "var journalAdParams = {doi: '10.1177/1'};")];
     elem "script" []
       [Text Script (lit "var journalAdParams = {doi: '10.1177/2'};")]].

(** An article page with all five fields, as markup and as tree. *)
Definition article_markup (title : string) : str :=
  lit "<meta name='dc.Title' content='" ++ lit title ++ lit "'>"
  ++ lit "<div id='corresp1-1'>Jane Doe (Dept of Y)</div>"
  ++ lit "<div class='core-history'><div>"
  ++ lit "<b class='core-label'>Article first published online: </b>"
  ++ lit "5 January 2024</div></div>"
  ++ lit "<script>" ++ doi_script_text ++ lit "</script>"
  ++ lit "<section id='abstract'><div role='paragraph'>We study Y.</div>"
  ++ lit "</section>".

Definition article_soup (title : string) : node :=
  document
    [elem "meta" [("name", "dc.Title"); ("content", title)] [];
     elem "div" [("id", "corresp1-1")] [text "Jane Doe (Dept of Y)"];
     elem "div" [("class", "core-history")]
       [elem "div" []
          [elem "b" [("class", "core-label")]
             [text "Article first published online: "];
           text "5 January 2024"]];
     elem "script" [] [Text Script doi_script_text];
     elem "section" [("id", "abstract")]
       [elem "div" [("role", "paragraph")] [text "We study Y."]]].

(** A page without the title tag. *)
Definition untitled_markup : str := lit "<p>Not found</p>".

Definition untitled_soup : node := document [elem "p" [] [text "Not found"]].

(** The parser on the sample pages. *)
Definition parse (markup : str) : node :=
  if bool_decide (markup = article_markup "First article") then
    article_soup "First article"
  else if bool_decide (markup = article_markup "Second article") then
    article_soup "Second article"
  else if bool_decide (markup = article_markup "Old article") then
    article_soup "Old article"
  else if bool_decide (markup = untitled_markup) then untitled_soup
  else document [].

Definition rendered (markup : str) : page :=
  {| page_dom := parse markup; content := markup |}.

(** A listing page with three article links and one other link, and a
    listing page without article link. *)
Definition toc : page :=
  {| page_dom :=
       document
         [elem "a" [("href", "/doi/abs/10.1177/a")] [text "First"];
          elem "a" [("href", "/toc/JMX/current")] [text "Current issue"];
          elem "a" [("href", "/doi/abs/10.1177/n")] [text "Gone"];
          elem "a" [("href", "/doi/abs/10.1177/b")] [text "Second"]];
     content :=
       lit "<a href='/doi/abs/10.1177/a'>First</a>"
       ++ lit "<a href='/toc/JMX/current'>Current issue</a>"
       ++ lit "<a href='/doi/abs/10.1177/n'>Gone</a>"
       ++ lit "<a href='/doi/abs/10.1177/b'>Second</a>" |}.

Definition empty_toc : page :=
  {| page_dom :=
       document
         [elem "a" [("href", "/toc/JMX/current")] [text "Current issue"]];
     content := lit "<a href='/toc/JMX/current'>Current issue</a>" |}.

(** The site: the listing page at its address and three article pages. *)
Definition web (listing : page) (url : str) : result page :=
  if bool_decide (url = toc_url) then Ok listing
  else if bool_decide (url = base_url ++ lit "/doi/abs/10.1177/a") then
    Ok (rendered (article_markup "First article"))
  else if bool_decide (url = base_url ++ lit "/doi/abs/10.1177/n") then
    Ok (rendered untitled_markup)
  else if bool_decide (url = base_url ++ lit "/doi/abs/10.1177/b") then
    Ok (rendered (article_markup "Second article"))
  else Raise (PlaywrightError (lit "net::ERR_NAME_NOT_RESOLVED")).

(** A serializer for the samples: one line per row, commas between cells,
    absent cells empty, no quoting. *)
Definition csv_line (cells : list str) : str := join (lit ",") cells ++ [10].

Definition csv (t : table) : str :=
  csv_line (columns t) ++ concat ((fun r => csv_line (default [] <$> r)) <$> rows t).

(** Two systems that differ in the order of the directory listing only. *)
Definition collaborators (listing : page) : Collaborators :=
  {| goto := web listing;
     BeautifulSoup := parse;
     listdir := fun d => elements (dom d);
     to_csv := csv;
     to_csv_partial := fun t => csv_line (columns t) |}.

Definition collaborators_rev (listing : page) : Collaborators :=
  {| goto := web listing;
     BeautifulSoup := parse;
     listdir := fun d => reverse (elements (dom d));
     to_csv := csv;
     to_csv_partial := fun t => csv_line (columns t) |}.

(** A page whose title has a carriage return in it, [A], the carriage
    return, [B]: its markup as fetched, and the tree the parser gives for
    that markup and for the markup with a line feed in its place. *)
Definition cr_markup : str :=
  lit "<meta name='dc.Title' content='A" ++ [13] ++ lit "B'>".

Definition cr_soup (line_end : N) : node :=
  document
    [Tag (lit "meta")
       (<[lit "content" := [65; line_end; 66]]>
          (attributes [("name", "dc.Title")])) []].

Definition parse_cr (markup : str) : node :=
  if bool_decide (markup = cr_markup) then cr_soup 13
  else if bool_decide (markup = universal_newlines cr_markup) then cr_soup 10
  else document [].

Definition collaborators_cr : Collaborators :=
  {| goto := web toc;
     BeautifulSoup := parse_cr;
     listdir := fun d => elements (dom d);
     to_csv := csv;
     to_csv_partial := fun t => csv_line (columns t) |}.

(** A working directory that holds an older page already. *)
Definition old_dir : gmap str entry :=
  {[ lit "old.html" := Utf8 (article_markup "Old article");
     lit "notes.txt" := Utf8 (lit "to do") ]}.

End Sample.

(** ** The cleaning of authors texts *)

Section Matcher.

Lemma star_split k cont s r :
  star k cont s = Some r ->
  exists pre post r',
    s = pre ++ post /\ Forall (fun c => in_class k c = true) pre
    /\ cont post = Some r'.
Proof.
  revert r. induction s as [|c s IH]; intros r; simpl.
  - intros Hc. exists [], [], r. auto.
  - destruct (in_class k c) eqn:Hk.
    + destruct (star k cont s) as [r0|] eqn:Hs.
      * intros _. destruct (IH r0 eq_refl) as (pre & post & r' & -> & Hpre & Hr').
        exists (c :: pre), post, r'. repeat split; auto.
      * intros Hc. exists [], (c :: s), r. auto.
    + intros Hc. exists [], (c :: s), r. auto.
Qed.

Lemma star_total k cont s :
  (forall t, is_Some (cont t)) -> is_Some (star k cont s).
Proof.
  intros Hcont. induction s as [|c s IH]; simpl; [done|].
  destruct (in_class k c); [|done].
  destruct (star k cont s); [by eexists|done].
Qed.

Lemma email_re_unfold :
  email_re =
  [Cls Star Space; Cls Once (Chr 101); Cls Once (Chr 109); Cls Once (Chr 97);
   Cls Once (Chr 105); Cls Once (Chr 108); Cls Once (Chr 58);
   Cls Plus NotSpace].
Proof. reflexivity. Qed.

Lemma open_paren_re_unfold :
  open_paren_re = [Cls Star Space; Cls Once (Chr 40)].
Proof. reflexivity. Qed.

Lemma close_paren_re_unfold :
  close_paren_re = [Cls Once (Chr 41); Cls Star Space].
Proof. reflexivity. Qed.

Lemma has_email_token_app pre s :
  has_email_token s = true -> has_email_token (pre ++ s) = true.
Proof.
  intros Hs. induction pre as [|c pre IH]; [done|].
  simpl. rewrite IH. apply orb_true_r.
Qed.

Lemma email_re_token s r :
  match_here email_re s = Some r -> has_email_token s = true.
Proof.
  rewrite email_re_unfold. simpl. intros Hm.
  apply star_split in Hm as (pre & post & r' & -> & _ & Hm).
  apply has_email_token_app. clear pre r.
  repeat match type of Hm with
  | match ?s with [] => _ | _ :: _ => _ end = Some _ =>
      destruct s as [|? ?]; [discriminate|]
  | (if (?c =? ?x) then _ else _) = Some _ =>
      destruct (N.eqb_spec c x); [subst c|discriminate]
  | shift <$> ?m = Some _ =>
      let H := fresh "Hm" in
      destruct m eqn:H; [clear Hm; rename H into Hm|discriminate]
  end.
  simpl in Hm. destruct (isspace n) eqn:Hn; [discriminate|].
  unfold has_email_token; fold has_email_token.
  replace (startswith _ _) with true.
  - simpl. by rewrite Hn.
  - symmetry. apply bool_decide_eq_true. by eexists.
Qed.

Lemma open_paren_re_elem s r : match_here open_paren_re s = Some r -> 40 ∈ s.
Proof.
  rewrite open_paren_re_unfold. simpl. intros Hm.
  apply star_split in Hm as (pre & post & r' & -> & _ & Hm).
  simpl in Hm. destruct post as [|c post]; [discriminate|].
  destruct (N.eqb_spec c 40); [subst c|discriminate].
  set_solver.
Qed.

Lemma close_paren_re_elem s r : match_here close_paren_re s = Some r -> 41 ∈ s.
Proof.
  rewrite close_paren_re_unfold. simpl. intros Hm.
  destruct s as [|c s]; [discriminate|].
  destruct (N.eqb_spec c 41); [subst c|discriminate].
  set_solver.
Qed.

(** No match starts anywhere in [s]: [re.sub] gives [s] back. *)
Lemma sub_no_match p repl s :
  (forall pre t, s = pre ++ t -> match_here p t = None) -> sub p repl s = s.
Proof.
  unfold sub. induction s as [|c s IH]; intros Hno; simpl.
  - by rewrite (Hno [] []).
  - rewrite (Hno [] (c :: s)) by done. f_equal. apply IH.
    intros pre t ->. by apply (Hno (c :: pre)).
Qed.

End Matcher.

Section Cleaning.

Lemma sub_from_elem p repl skip s x :
  x ∈ sub_from p repl skip s -> x ∈ repl \/ x ∈ s.
Proof.
  assert (forall c t, x ∈ repl \/ x ∈ t -> x ∈ repl \/ x ∈ c :: t) as Hcons.
  { intros c t [?|?]; [by left|right]. apply elem_of_cons. by right. }
  revert skip. induction s as [|c s IH]; intros skip; simpl.
  - destruct skip, (match_here p []); intros Hx;
      first [by left|by apply elem_of_nil in Hx].
  - destruct skip as [|k]; [|by intros Hx%IH%(Hcons c)].
    destruct (match_here p (c :: s)) as [[[|k] ms]|].
    + intros [Hx|Hx]%elem_of_app; [by left|].
      apply elem_of_cons in Hx as [->|Hx%IH%(Hcons c)]; [|done].
      right. apply elem_of_cons. by left.
    + intros [Hx|Hx%IH%(Hcons c)]%elem_of_app; [by left|done].
    + intros [->|Hx%IH%(Hcons c)]%elem_of_cons; [|done].
      right. apply elem_of_cons. by left.
Qed.

Lemma dot_not_paren x : x ∈ lit "." -> x <> 40 /\ x <> 41.
Proof.
  change (lit ".") with [46]. intros Hx.
  apply list_elem_of_singleton in Hx as ->. done.
Qed.

(** After the second substitution no opening parenthesis is left. *)
Lemma open_paren_removed skip s :
  40 ∉ sub_from open_paren_re (lit ".") skip s.
Proof.
  rewrite open_paren_re_unfold.
  revert skip. induction s as [|c s IH]; intros skip.
  - destruct skip; vm_compute; by intros ?%elem_of_nil.
  - destruct skip as [|k]; [|apply IH].
    cbn [sub_from].
    destruct (match_here _ (c :: s)) as [[[|k] ms]|] eqn:Hm.
    + intros Hx. apply elem_of_app in Hx as [Hx|Hx];
        [by apply dot_not_paren in Hx as [? _]|].
      apply elem_of_cons in Hx as [<-|Hx]; [discriminate Hm|by apply IH in Hx].
    + intros Hx. apply elem_of_app in Hx as [Hx|Hx];
        [by apply dot_not_paren in Hx as [? _]|by apply IH in Hx].
    + intros Hx.
      apply elem_of_cons in Hx as [<-|Hx]; [discriminate Hm|by apply IH in Hx].
Qed.

(** After the third substitution no closing parenthesis is left. *)
Lemma close_paren_removed skip s :
  41 ∉ sub_from close_paren_re (lit ".") skip s.
Proof.
  rewrite close_paren_re_unfold.
  assert (Hhit : forall t, exists k ms,
    match_here [Cls Once (Chr 41); Cls Star Space] (41 :: t) = Some (S k, ms)).
  { intros t. simpl.
    destruct (star_total Space (match_here []) t) as [[k ms] Hs]; [by eexists|].
    simpl in Hs. rewrite Hs. by eexists _, _. }
  revert skip. induction s as [|c s IH]; intros skip.
  - destruct skip; vm_compute; by intros ?%elem_of_nil.
  - destruct skip as [|k]; [|apply IH].
    cbn [sub_from].
    destruct (match_here _ (c :: s)) as [[[|k] ms]|] eqn:Hm.
    + intros Hx. apply elem_of_app in Hx as [Hx|Hx];
        [by apply dot_not_paren in Hx as [_ ?]|].
      apply elem_of_cons in Hx as [<-|Hx]; [|by apply IH in Hx].
      destruct (Hhit s) as (k & ms' & Hk). congruence.
    + intros Hx. apply elem_of_app in Hx as [Hx|Hx];
        [by apply dot_not_paren in Hx as [_ ?]|by apply IH in Hx].
    + intros Hx.
      apply elem_of_cons in Hx as [<-|Hx]; [|by apply IH in Hx].
      destruct (Hhit s) as (k & ms' & Hk). congruence.
Qed.

(** The cleaned text holds no parenthesis. *)
Lemma clean_authors_no_paren s :
  (40 ∉ clean_authors s) /\ (41 ∉ clean_authors s).
Proof.
  unfold clean_authors, sub. split; [|apply close_paren_removed].
  intros Hx. apply sub_from_elem in Hx as [Hx|Hx].
  - by apply dot_not_paren in Hx as [? _].
  - by apply open_paren_removed in Hx.
Qed.

(** Each substitution leaves a text alone in which its pattern has nothing
    to match. *)
Lemma sub_email_unchanged s :
  has_email_token s = false -> sub email_re (lit ".") s = s.
Proof.
  intros Hemail. apply sub_no_match.
  intros pre t ->. destruct (match_here email_re t) eqn:Hm; [|done].
  apply email_re_token, (has_email_token_app pre) in Hm. congruence.
Qed.

Lemma sub_open_paren_unchanged s :
  40 ∉ s -> sub open_paren_re (lit ".") s = s.
Proof.
  intros Hopen. apply sub_no_match.
  intros pre t ->. destruct (match_here open_paren_re t) eqn:Hm; [|done].
  apply open_paren_re_elem in Hm. destruct Hopen.
  apply elem_of_app. by right.
Qed.

Lemma sub_close_paren_unchanged s :
  41 ∉ s -> sub close_paren_re (lit ".") s = s.
Proof.
  intros Hclose. apply sub_no_match.
  intros pre t ->. destruct (match_here close_paren_re t) eqn:Hm; [|done].
  apply close_paren_re_elem in Hm. destruct Hclose.
  apply elem_of_app. by right.
Qed.

(** Cleaning twice is cleaning once, when the cleaned text holds no
    [email:] token. *)
Lemma clean_authors_twice s :
  has_email_token (clean_authors s) = false ->
  clean_authors (clean_authors s) = clean_authors s.
Proof.
  intros Hemail. destruct (clean_authors_no_paren s) as [Hopen Hclose].
  unfold clean_authors at 1.
  rewrite (sub_email_unchanged _ Hemail), (sub_open_paren_unchanged _ Hopen).
  by apply sub_close_paren_unchanged.
Qed.

End Cleaning.

(** C3 (as the code has it). For the authors text
    ["Jane Doe (email: jane@x.com) Dept of Y"] the three substitutions, in
    the order of the source, give ["Jane Doe.email: jane@x.com.Dept of Y"]:
    a space follows [email:], so the first pattern matches nowhere, and the
    two parenthesis patterns each put one period, taking the space next to
    the parenthesis. *)
Theorem clean_authors_jane_doe :
  clean_authors (lit "Jane Doe (email: jane@x.com) Dept of Y")
  = lit "Jane Doe.email: jane@x.com.Dept of Y".
Proof. vm_compute. reflexivity. Qed.

(** C3 as stated fails: the cleaned text is not ["Jane Doe. . Dept of Y."]. *)
Lemma clean_authors_jane_doe_differs :
  clean_authors (lit "Jane Doe (email: jane@x.com) Dept of Y")
  <> lit "Jane Doe. . Dept of Y.".
Proof. vm_compute. discriminate. Qed.

(** C8 (as the code has it). A text with no [email:] followed by a
    non-space character, no opening and no closing parenthesis comes back
    unchanged from the three substitutions. *)
Theorem clean_authors_clean_input (s : str) :
  has_email_token s = false -> 40 ∉ s -> 41 ∉ s -> clean_authors s = s.
Proof.
  intros Hemail Hopen Hclose. unfold clean_authors.
  rewrite (sub_email_unchanged s Hemail).
  rewrite (sub_open_paren_unchanged s Hopen).
  exact (sub_close_paren_unchanged s Hclose).
Qed.

Lemma clean_authors_clean_input_witness :
  clean_authors (lit "Jane Doe. Dept of Y") = lit "Jane Doe. Dept of Y".
Proof.
  apply (clean_authors_clean_input (lit "Jane Doe. Dept of Y")).
  - vm_compute. reflexivity.
  - refine (bool_decide_unpack _ _). vm_compute. exact I.
  - refine (bool_decide_unpack _ _). vm_compute. exact I.
Defined.

(** C8 as stated fails in its last part: cleaning is not idempotent on its
    own outputs.  ["email: (x"] is cleaned to ["email:.x"], in which
    [email:] is now followed by a non-space, and that is cleaned to ["."]. *)
Lemma clean_authors_not_idempotent :
  clean_authors (lit "email: (x") = lit "email:.x"
  /\ clean_authors (clean_authors (lit "email: (x"))
     <> clean_authors (lit "email: (x").
Proof. vm_compute. split; [reflexivity|discriminate]. Qed.

(** ** The staging script, file by file *)

Section StagingFiles.
Context `{Collaborators}.

Lemma startswith_app (p s : str) : startswith (p ++ s) p = true.
Proof. apply bool_decide_eq_true. by exists s. Qed.

Lemma endswith_app (s p : str) : endswith (s ++ p) p = true.
Proof. apply bool_decide_eq_true. by exists s. Qed.

Lemma resolve_join filename :
  resolve (path_join Staging.html_directory filename) = filename.
Proof.
  unfold path_join, Staging.html_directory.
  destruct (startswith filename (lit "/")) eqn:Hroot.
  - unfold resolve. destruct (startswith filename (lit "./")) eqn:Hdot; [|done].
    apply bool_decide_eq_true in Hroot as [k1 ->].
    apply bool_decide_eq_true in Hdot as [k2 Hk]. discriminate Hk.
  - change (bool_decide (lit "." = []) || endswith (lit ".") (lit "/"))
      with false. cbv iota.
    change (lit "." ++ lit "/" ++ filename) with (lit "./" ++ filename).
    unfold resolve. by rewrite startswith_app.
Qed.

Lemma resolve_page_file i : resolve (Staging.page_file i) = Staging.page_file i.
Proof.
  unfold resolve. destruct (startswith _ _) eqn:Hdot; [|done].
  apply bool_decide_eq_true in Hdot as [k Hk]. vm_compute in Hk.
  discriminate Hk.
Qed.

Lemma resolve_csv_path : resolve csv_path = csv_path.
Proof. reflexivity. Qed.

Lemma page_file_is_html i : is_html (Staging.page_file i) = true.
Proof.
  unfold is_html, Staging.page_file. rewrite app_assoc. apply endswith_app.
Qed.

(** A text without carriage return is read as it is stored. *)
Lemma universal_newlines_id s : 13 ∉ s -> universal_newlines s = s.
Proof.
  induction s as [|c s IH]; [done|].
  intros [Hc Hs]%not_elem_of_cons. cbn [universal_newlines].
  destruct (N.eqb_spec c 13) as [->|_]; [done|]. by rewrite IH.
Qed.

Lemma open_soup_found path d markup :
  d !! resolve path = Some (Utf8 markup) ->
  Staging.open_soup path d
  = (d, Ok (BeautifulSoup (universal_newlines markup))).
Proof.
  intros Hd. unfold Staging.open_soup, mbind, M_bind, open_read.
  by rewrite Hd.
Qed.

Lemma open_soup_undecodable path d :
  d !! resolve path = Some NotUtf8 ->
  Staging.open_soup path d = (d, Raise UnicodeDecodeError).
Proof.
  intros Hd. unfold Staging.open_soup, mbind, M_bind, open_read.
  by rewrite Hd.
Qed.

Lemma open_soup_missing path d :
  d !! resolve path = None ->
  Staging.open_soup path d = (d, Raise FileNotFoundError).
Proof.
  intros Hd. unfold Staging.open_soup, mbind, M_bind, open_read.
  by rewrite Hd.
Qed.

(** The body of the second loop on a name that does not end in [.html]. *)
Lemma extract_file_other filename data d :
  is_html filename = false -> Staging.extract_file filename data d = (d, Ok data).
Proof. unfold is_html, Staging.extract_file. by intros ->. Qed.

(** The body of the second loop on a [.html] file that is there: the file
    is removed whether or not the record is kept; an exception of the date
    extraction leaves it in place. *)
Lemma extract_file_html filename data d markup :
  is_html filename = true ->
  d !! filename = Some (Utf8 markup) ->
  Staging.extract_file filename data d =
  match staged_record (BeautifulSoup (universal_newlines markup)) with
  | Ok r => (delete filename d, Ok (append_if_title data r))
  | Raise e => (d, Raise e)
  end.
Proof.
  unfold is_html, Staging.extract_file. intros -> Hd.
  unfold Staging.extract_title_from_html, Staging.extract_authors_from_html,
    Staging.extract_publication_date_from_html, Staging.extract_doi_from_html,
    Staging.extract_abstract_from_html, staged_record, mbind, M_bind.
  unfold result_bind, remove.
  destruct (Staging.publication_date_of
              (BeautifulSoup (universal_newlines markup))) eqn:Hdate;
    repeat first
      [ rewrite (open_soup_found _ d markup) by by rewrite resolve_join
      | rewrite Hdate
      | rewrite resolve_join, Hd
      | progress (unfold mret, M_ret, lift; cbn beta iota zeta) ];
    done.
Qed.

(** The body of the second loop on a [.html] name that is not there. *)
Lemma extract_file_missing filename data d :
  is_html filename = true ->
  d !! filename = None ->
  Staging.extract_file filename data d = (d, Raise FileNotFoundError).
Proof.
  unfold is_html, Staging.extract_file. intros -> Hd.
  unfold Staging.extract_title_from_html, mbind, M_bind.
  rewrite open_soup_missing; [done|by rewrite resolve_join].
Qed.

(** The body of the second loop on a [.html] file that is not UTF-8. *)
Lemma extract_file_undecodable filename data d :
  is_html filename = true ->
  d !! filename = Some NotUtf8 ->
  Staging.extract_file filename data d = (d, Raise UnicodeDecodeError).
Proof.
  unfold is_html, Staging.extract_file. intros -> Hd.
  unfold Staging.extract_title_from_html, mbind, M_bind.
  rewrite open_soup_undecodable; [done|by rewrite resolve_join].
Qed.

(** A second loop that ends well: the [.html] names of the list were all
    parsed, in the order of the list, the records with a title were
    appended, and exactly these files are gone. *)
Lemma extract_files_ok names data d d' data' :
  Staging.extract_files names data d = (d', Ok data') ->
  exists recs,
    Forall2 (fun f r => exists markup,
               d !! f = Some (Utf8 markup)
               /\ staged_record (BeautifulSoup (universal_newlines markup))
                  = Ok r)
            (List.filter is_html names) recs
    /\ data' = data ++ List.filter has_title recs
    /\ forall f, d' !! f =
         if bool_decide (f ∈ List.filter is_html names) then None else d !! f.
Proof.
  revert data d. induction names as [|f names IH]; intros data d Hrun.
  - injection Hrun as <- <-. exists []. split; [constructor|].
    split; [by rewrite app_nil_r|]. intros f. by rewrite bool_decide_eq_false_2 by set_solver.
  - cbn [Staging.extract_files] in Hrun. unfold mbind, M_bind in Hrun.
    destruct (is_html f) eqn:Hf.
    + destruct (d !! f) as [[markup|]|] eqn:Hd.
      2:{ by rewrite extract_file_undecodable in Hrun. }
      2:{ by rewrite extract_file_missing in Hrun. }
      rewrite (extract_file_html _ _ _ markup) in Hrun by done.
      destruct (staged_record (BeautifulSoup (universal_newlines markup)))
        as [r|e] eqn:Hr; [|done].
      apply IH in Hrun as (recs & Hrecs & -> & Hd').
      exists (r :: recs). cbn [List.filter]. rewrite Hf. split; [|split].
      * constructor; [by exists markup|].
        eapply Forall2_impl; [exact Hrecs|].
        intros g r' (m & Hm & Hr'). exists m. split; [|done].
        by apply lookup_delete_Some in Hm as [_ ?].
      * unfold append_if_title, has_title. cbn [List.filter].
        destruct (truthy (Title r)); [by rewrite <-app_assoc|done].
      * intros g. rewrite Hd'. destruct (decide (g = f)) as [->|Hne].
        -- rewrite lookup_delete_eq.
           rewrite (bool_decide_eq_true_2 (f ∈ f :: _)) by set_solver.
           by case_bool_decide.
        -- rewrite lookup_delete_ne by done.
           rewrite (bool_decide_ext (g ∈ f :: List.filter is_html names)
                      (g ∈ List.filter is_html names)); [done|].
           rewrite elem_of_cons. split; [by intros [?|?]|by right].
    + rewrite extract_file_other in Hrun by done.
      apply IH in Hrun as (recs & Hrecs & -> & Hd').
      exists recs. cbn [List.filter]. rewrite Hf. done.
Qed.

(** A second loop over names none of which ends in [.html] does nothing. *)
Lemma extract_files_none names data d :
  Forall (fun f => is_html f = false) names ->
  Staging.extract_files names data d = (d, Ok data).
Proof.
  induction 1 as [|f names Hf _ IH]; [done|].
  cbn [Staging.extract_files]. unfold mbind, M_bind.
  by rewrite extract_file_other.
Qed.

(** A first loop that ends well: every link was fetched, and the pages are
    in the directory under their indices. *)
Lemma stage_ok i hrefs d d1 :
  Staging.stage i hrefs d = (d1, Ok tt) ->
  exists pages,
    Forall2 (fun href p => goto (base_url ++ href) = Ok p) hrefs pages
    /\ Forall (fun p => forallb encodable (content p) = true) pages
    /\ d1 = staged i (content <$> pages) d.
Proof.
  revert i d. induction hrefs as [|href hrefs IH]; intros i d Hrun.
  - injection Hrun as <-. by exists [].
  - cbn [Staging.stage] in Hrun.
    unfold mbind, M_bind, Staging.process_page, lift, open_write in Hrun.
    destruct (goto (base_url ++ href)) as [p|e] eqn:Hp; [|done].
    unfold fmap, result_fmap in Hrun. cbn beta iota zeta in Hrun.
    rewrite resolve_page_file in Hrun.
    destruct (forallb encodable (content p)) eqn:Henc; [|done].
    apply IH in Hrun as (pages & Hpages & Hencs & ->).
    exists (p :: pages). split; [by constructor|]. split; [by constructor|done].
Qed.

Lemma staged_other i contents d f :
  (forall k, (i <= k < i + length contents)%nat -> f <> Staging.page_file k) ->
  staged i contents d !! f = d !! f.
Proof.
  revert i d. induction contents as [|c rest IH]; intros i d Hf; [done|].
  cbn [staged length] in *. rewrite IH.
  - apply lookup_insert_ne. symmetry. apply Hf. lia.
  - intros k Hk. apply Hf. lia.
Qed.

(** [collect] of the staging script when it ends well. *)
Lemma staging_collect_ok d d' data :
  Staging.collect d = (d', Ok data) ->
  exists main_page pages recs,
    goto toc_url = Ok main_page
    /\ Forall2 (fun href p => goto (base_url ++ href) = Ok p)
         (extract_links main_page) pages
    /\ let d1 := staged 1 (content <$> pages) d in
       Forall2 (fun f r => exists markup,
                  d1 !! f = Some (Utf8 markup)
                  /\ staged_record (BeautifulSoup (universal_newlines markup))
                     = Ok r)
               (List.filter is_html (listdir d1)) recs
       /\ data = List.filter has_title recs
       /\ forall f, d' !! f =
            if bool_decide (f ∈ List.filter is_html (listdir d1)) then None
            else d1 !! f.
Proof.
  unfold Staging.collect, mbind, M_bind, lift. intros Hrun.
  destruct (goto toc_url) as [main_page|e] eqn:Hmain; [|done].
  destruct (Staging.stage 1 (extract_links main_page) d) as [d1 [[]|e]] eqn:Hst;
    [|done].
  apply stage_ok in Hst as (pages & Hpages & _ & ->).
  apply extract_files_ok in Hrun as (recs & Hrecs & -> & Hd').
  by exists main_page, pages, recs.
Qed.

End StagingFiles.

(** ** The in-memory script, link by link *)

Section InMemoryLinks.
Context `{Collaborators}.

(** The loop over the links ends well exactly when every page is fetched
    and parsed without exception; the records with a title are appended in
    the order of the links. *)
Lemma visit_ok hrefs data data' :
  InMemory.visit hrefs data = Ok data' <->
  exists pages recs,
    Forall2 (fun href p => goto (base_url ++ href) = Ok p) hrefs pages
    /\ Forall2 (fun p r => InMemory.extract_data_from_html (content p) = Ok r)
         pages recs
    /\ data' = data ++ List.filter has_title recs.
Proof.
  revert data. induction hrefs as [|href hrefs IH]; intros data.
  - cbn [InMemory.visit]. split.
    + intros [= <-]. exists [], []. by rewrite app_nil_r.
    + intros (pages & recs & Hp & Hr & ->).
      apply Forall2_nil_inv_l in Hp as ->. apply Forall2_nil_inv_l in Hr as ->.
      by rewrite app_nil_r.
  - cbn [InMemory.visit]. unfold mbind, result_bind. split.
    + destruct (goto (base_url ++ href)) as [p|e] eqn:Hp; [|done].
      destruct (InMemory.extract_data_from_html (content p)) as [r|e] eqn:Hr;
        [|done].
      intros (pages & recs & Hps & Hrs & ->)%IH.
      exists (p :: pages), (r :: recs). repeat split; [by constructor..|].
      unfold append_if_title, has_title. cbn [List.filter].
      destruct (truthy (Title r)); [by rewrite <-app_assoc|done].
    + intros (pages & recs & Hps & Hrs & ->).
      apply Forall2_cons_inv_l in Hps as (p & pages' & Hp & Hps & ->).
      apply Forall2_cons_inv_l in Hrs as (r & recs' & Hr & Hrs & ->).
      rewrite Hp, Hr. apply IH. exists pages', recs'. repeat split; [done..|].
      unfold append_if_title, has_title. cbn [List.filter].
      destruct (truthy (Title r)); [by rewrite <-app_assoc|done].
Qed.

Lemma filter_has_title recs :
  Forall (fun r => has_title r = true) (List.filter has_title recs).
Proof.
  apply Forall_forall. intros r Hr%list_elem_of_In%filter_In. tauto.
Qed.

End InMemoryLinks.

(** ** The two ways of extracting *)

Section Variants.

Lemma clean_authors_subs s :
  sub close_paren_re (lit ".")
    (sub open_paren_re (lit ".") (sub email_re (lit ".") s))
  = clean_authors s.
Proof. reflexivity. Qed.

(** With at most one author element, cleaning and joining commute. *)
Lemma authors_of_one soup :
  (length (author_divs soup) <= 1)%nat ->
  Staging.authors_of soup = InMemory.authors_of soup.
Proof.
  unfold Staging.authors_of, InMemory.authors_of.
  destruct (author_divs soup) as [|div [|div' divs]]; [done|done|].
  cbn [length]. lia.
Qed.

Lemma date_loops_none divs acc :
  List.filter date_label divs = [] ->
  Staging.date_loop divs = Ok None /\ InMemory.date_loop divs acc = Ok acc.
Proof.
  induction divs as [|div divs IH]; [done|].
  cbn [List.filter Staging.date_loop InMemory.date_loop].
  destruct (date_label div); [done|]. exact IH.
Qed.

(** With at most one labelled [div], first and last are the same one. *)
Lemma date_loops_one divs :
  (length (List.filter date_label divs) <= 1)%nat ->
  InMemory.date_loop divs None = Staging.date_loop divs.
Proof.
  induction divs as [|div divs IH]; [done|].
  cbn [List.filter Staging.date_loop InMemory.date_loop].
  destruct (date_label div); [|exact IH].
  cbn [length]. intros Hlen.
  assert (List.filter date_label divs = []) as Hnone
    by (destruct (List.filter date_label divs); [done|cbn [length] in Hlen; lia]).
  unfold mbind, result_bind, fmap, result_fmap.
  destruct (date_text div) as [d|e]; [|done].
  by destruct (date_loops_none divs (Some d) Hnone) as [_ ->].
Qed.

Lemma doi_loops_none scripts acc :
  List.filter doi_hit scripts = [] ->
  Staging.doi_loop scripts = None /\ InMemory.doi_loop scripts acc = acc.
Proof.
  induction scripts as [|script scripts IH]; [done|].
  cbn [List.filter Staging.doi_loop InMemory.doi_loop]. unfold doi_hit.
  destruct (doi_script script), (doi_match script); try done; exact IH.
Qed.

(** With at most one script in which a DOI is found, likewise. *)
Lemma doi_loops_one scripts :
  (length (List.filter doi_hit scripts) <= 1)%nat ->
  InMemory.doi_loop scripts None = Staging.doi_loop scripts.
Proof.
  induction scripts as [|script scripts IH]; [done|].
  cbn [List.filter Staging.doi_loop InMemory.doi_loop]. unfold doi_hit at 1.
  destruct (doi_script script), (doi_match script) as [doi|]; try exact IH.
  cbn [length]. intros Hlen.
  assert (List.filter doi_hit scripts = []) as Hnone
    by (destruct (List.filter doi_hit scripts); [done|cbn [length] in Hlen; lia]).
  by destruct (doi_loops_none scripts (Some doi) Hnone) as [_ ->].
Qed.

(** Scripts without the marker before and after the one that has it do not
    change what the two DOI loops find. *)
Lemma doi_loops_skip pre scripts acc :
  Forall (fun s => doi_script s = false) pre ->
  Staging.doi_loop (pre ++ scripts) = Staging.doi_loop scripts
  /\ InMemory.doi_loop (pre ++ scripts) acc = InMemory.doi_loop scripts acc.
Proof.
  induction 1 as [|s pre Hs _ IH]; [done|].
  cbn [app Staging.doi_loop InMemory.doi_loop]. by rewrite Hs.
Qed.

(** Without a colon in the text there is one piece only, and no piece of
    index 1. *)
Lemma split1_no_sep c s : c ∉ s -> split1 c s = [s].
Proof.
  induction s as [|x s IH]; [done|]. intros Hc.
  apply not_elem_of_cons in Hc as [Hx Hs]. cbn [split1].
  destruct (N.eqb_spec x c) as [->|_]; [done|]. by rewrite (IH Hs).
Qed.

Lemma date_text_no_colon div :
  58 ∉ get_text true div -> date_text div = Raise IndexError.
Proof. intros Hc. unfold date_text. by rewrite (split1_no_sep _ _ Hc). Qed.

(** The date extraction of the staging scripts raises as soon as the first
    labelled [div] has no colon in its text; the loop of the in-memory
    script raises when any labelled [div] has none. *)
Lemma date_loops_raise pre div post acc :
  Forall (fun d => date_label d = false) pre ->
  date_label div = true ->
  58 ∉ get_text true div ->
  Staging.date_loop (pre ++ div :: post) = Raise IndexError
  /\ InMemory.date_loop (pre ++ div :: post) acc = Raise IndexError.
Proof.
  intros Hpre Hdiv Hc%date_text_no_colon.
  induction Hpre as [|d pre Hd _ IH].
  - cbn [app Staging.date_loop InMemory.date_loop]. by rewrite Hdiv, Hc.
  - cbn [app Staging.date_loop InMemory.date_loop]. by rewrite Hd.
Qed.

Lemma title_of_none soup : no_title_meta soup -> title_of soup = None.
Proof.
  unfold no_title_meta, title_of, find, find_all. intros Hno.
  replace (List.filter _ (descendants soup)) with (@nil node); [done|].
  symmetry. induction Hno as [|n l Hn _ IH]; [done|].
  cbn [List.filter]. by rewrite Hn.
Qed.

End Variants.

(** ** Properties of the extraction rules *)

(** C1 (the code at the failing input). On the document
    [<div class='core-history'><div><b class='core-label'>Article first
    published online</b> 5 January 2024</div></div>] the history block and
    the label are there and the text of the labelled [div] has no colon:
    [split(':', 1)] gives one piece, [[1]] raises [IndexError].  The date
    extraction of the staging scripts raises it, and so does
    [extract_data_from_html] of the in-memory script as a whole, while the
    other four extractions return [None] on this document. *)
Theorem publication_date_no_colon_raises :
  split1 58 (get_text true
    (Sample.elem "div" []
       [Sample.elem "b" [("class", "core-label")]
          [Sample.text "Article first published online"];
        Sample.text " 5 January 2024"]))
  = [lit "Article first published online5 January 2024"]
  /\ Staging.publication_date_of Sample.no_colon_soup = Raise IndexError
  /\ InMemory.extract_data Sample.no_colon_soup = Raise IndexError
  /\ title_of Sample.no_colon_soup = None
  /\ Staging.authors_of Sample.no_colon_soup = None
  /\ Staging.doi_of Sample.no_colon_soup = None
  /\ abstract_of Sample.no_colon_soup = None.
Proof. vm_compute. repeat split; reflexivity. Qed.

(** C7. In a document whose script with the [var journalAdParams =] marker
    has the text
    [var journalAdParams = {doi: '10.1177/0025149241234567', other: 1};]
    (other scripts, before or after, not having the marker), the DOI
    extraction returns exactly [10.1177/0025149241234567]: in the staging
    scripts, in the loop of the in-memory script, and so in the record that
    one returns. *)
Theorem doi_from_journalAdParams (soup : node) (pre post : list node)
    (script : node) :
  script_tags soup = pre ++ script :: post ->
  Forall (fun s => doi_script s = false) pre ->
  Forall (fun s => doi_script s = false) post ->
  tag_string script = Some Sample.doi_script_text ->
  Staging.doi_of soup = Some (lit "10.1177/0025149241234567")
  /\ InMemory.doi_loop (script_tags soup) None
     = Some (lit "10.1177/0025149241234567")
  /\ forall r, InMemory.extract_data soup = Ok r ->
       DOI r = Some (lit "10.1177/0025149241234567").
Proof.
  intros Htags Hpre Hpost Htext.
  assert (doi_script script = true) as Hs
    by (unfold doi_script; rewrite Htext; vm_compute; reflexivity).
  assert (doi_match script = Some (lit "10.1177/0025149241234567")) as Hm
    by (unfold doi_match; rewrite Htext; vm_compute; reflexivity).
  assert (Staging.doi_of soup = Some (lit "10.1177/0025149241234567")
          /\ InMemory.doi_loop (script_tags soup) None
             = Some (lit "10.1177/0025149241234567")) as [Hst Hin].
  { unfold Staging.doi_of. rewrite Htags.
    destruct (doi_loops_skip pre (script :: post) None Hpre) as [-> ->].
    cbn [Staging.doi_loop InMemory.doi_loop]. rewrite Hs, Hm. split; [done|].
    destruct (doi_loops_skip post [] (Some (lit "10.1177/0025149241234567"))
                Hpost) as [_ Hrest].
    by rewrite app_nil_r in Hrest. }
  repeat split; [done..|].
  intros r. unfold InMemory.extract_data, mbind, result_bind.
  destruct (InMemory.date_loop _ _); [|done]. by intros [= <-].
Qed.

Lemma doi_from_journalAdParams_witness :
  Staging.doi_of Sample.doi_soup = Some (lit "10.1177/0025149241234567")
  /\ InMemory.doi_loop (script_tags Sample.doi_soup) None
     = Some (lit "10.1177/0025149241234567")
  /\ forall r, InMemory.extract_data Sample.doi_soup = Ok r ->
       DOI r = Some (lit "10.1177/0025149241234567").
Proof.
  apply (doi_from_journalAdParams Sample.doi_soup [] []
           (Sample.elem "script" [] [Text Script Sample.doi_script_text])).
  - vm_compute. reflexivity.
  - constructor.
  - constructor.
  - reflexivity.
Defined.

(** ** Properties of the drivers *)

Section SampleSystems.

Lemma sample_listdir_spec listing :
  @listdir_spec (Sample.collaborators listing).
Proof.
  intros d.
  change (@listdir (Sample.collaborators listing) d) with (elements (dom d)).
  split; [apply NoDup_elements|].
  intros f. by rewrite elem_of_elements, elem_of_dom.
Qed.

Lemma sample_rev_listdir_spec listing :
  @listdir_spec (Sample.collaborators_rev listing).
Proof.
  intros d.
  change (@listdir (Sample.collaborators_rev listing) d)
    with (reverse (elements (dom d))).
  split; [rewrite reverse_Permutation; apply NoDup_elements|].
  intros f. by rewrite elem_of_reverse, elem_of_elements, elem_of_dom.
Qed.

End SampleSystems.

Section Drivers.
Context `{Collaborators}.

Lemma extract_links_none main_page :
  Forall (fun n => doi_anchor n = false) (descendants (page_dom main_page)) ->
  extract_links main_page = [].
Proof.
  unfold extract_links, query_selector_all. intros Hno.
  induction Hno as [|n l Hn _ IH]; [done|].
  cbn [List.filter]. by rewrite Hn.
Qed.

Lemma staging_main_unfold d :
  Staging.main d =
  match Staging.collect d with
  | (d', Ok data) => export (DataFrame data) d'
  | (d', Raise e) => (d', Raise e)
  end.
Proof. reflexivity. Qed.

Lemma in_memory_main_unfold d :
  InMemory.main d =
  match InMemory.collect with
  | Ok data => export (DataFrame data) d
  | Raise e => (d, Raise e)
  end.
Proof. unfold InMemory.main, mbind, M_bind, lift. by destruct InMemory.collect. Qed.

(** An export that ends well has written the whole table. *)
Lemma export_ok df d d' :
  export df d = (d', Ok tt) ->
  table_encodable df = true /\ d' = <[csv_path := Utf8 (to_csv df)]> d.
Proof.
  unfold export. destruct (table_encodable df); [|done]. by intros [= <-].
Qed.

(** Whatever its outcome, the export touches [scraped_data.csv] only. *)
Lemma export_frame df d d' r f :
  export df d = (d', r) -> f <> csv_path -> d' !! f = d !! f.
Proof.
  unfold export. intros Hrun Hf.
  destruct (table_encodable df); injection Hrun as <- _;
    by rewrite lookup_insert_ne.
Qed.

Lemma html_not_csv f : is_html f = true -> f <> csv_path.
Proof. by intros Hf ->. Qed.

End Drivers.

(** C6. A document without a [meta] tag named [dc.Title] has no title: the
    title extraction returns [None], a record built from it (by either
    script) has [Title] [None], and the driver leaves the list of records
    as it was; the body of the second loop of the staging scripts on such a
    file leaves [data] as it was.  And every record in the list a run hands
    to the exporter has a title that is not empty, in the in-memory script
    and in the staging scripts. *)
Theorem untitled_not_exported `{Collaborators} :
  (forall soup, no_title_meta soup ->
     title_of soup = None
     /\ (forall r, InMemory.extract_data soup = Ok r \/ staged_record soup = Ok r ->
           Title r = None /\ forall data, append_if_title data r = data))
  /\ (forall filename markup data d d' data',
        is_html filename = true -> d !! filename = Some (Utf8 markup) ->
        no_title_meta (BeautifulSoup (universal_newlines markup)) ->
        Staging.extract_file filename data d = (d', Ok data') -> data' = data)
  /\ (forall data, InMemory.collect = Ok data ->
        Forall (fun r => truthy (Title r) = true) data)
  /\ (forall d d' data, Staging.collect d = (d', Ok data) ->
        Forall (fun r => truthy (Title r) = true) data).
Proof.
  assert (forall soup r, no_title_meta soup ->
            InMemory.extract_data soup = Ok r \/ staged_record soup = Ok r ->
            Title r = None /\ forall data, append_if_title data r = data) as Hrec.
  { intros soup r Hno%title_of_none Hr.
    assert (Title r = None) as Ht.
    { destruct Hr as [Hr|Hr].
      - unfold InMemory.extract_data, mbind, result_bind in Hr.
        destruct (InMemory.date_loop _ _); [|done]. by injection Hr as <-.
      - unfold staged_record, mbind, result_bind in Hr.
        destruct (Staging.publication_date_of _); [|done]. by injection Hr as <-. }
    split; [done|]. intros data. unfold append_if_title. by rewrite Ht. }
  split; [|split; [|split]].
  - intros soup Hno. split; [by apply title_of_none|]. intros r. by apply Hrec.
  - intros filename markup data d d' data' Hf Hd Hno.
    rewrite (extract_file_html filename data d markup Hf Hd).
    destruct (staged_record (BeautifulSoup (universal_newlines markup)))
      as [r|e] eqn:Hr; [|done].
    intros [= _ <-].
    by apply (Hrec (BeautifulSoup (universal_newlines markup))); [|right].
  - intros data. unfold InMemory.collect, mbind, result_bind.
    destruct (goto toc_url) as [main_page|e]; [|done].
    intros (pages & recs & _ & _ & ->)%visit_ok. apply filter_has_title.
  - intros d d' data (main_page & pages & recs & _ & _ & _ & -> & _)%staging_collect_ok.
    apply filter_has_title.
Qed.

Lemma untitled_not_exported_witness :
  let C := Sample.collaborators Sample.toc in
  title_of Sample.untitled_soup = None
  /\ (exists d' data',
        Staging.extract_file (lit "page_2.html") []
          {[ lit "page_2.html" := Utf8 Sample.untitled_markup ]}
        = (d', Ok data')
        /\ data' = [])
  /\ (exists data, InMemory.collect = Ok data
        /\ length data = 2%nat
        /\ Forall (fun r => truthy (Title r) = true) data)
  /\ (exists d' data, Staging.collect ∅ = (d', Ok data)
        /\ length data = 2%nat
        /\ Forall (fun r => truthy (Title r) = true) data).
Proof.
  intros C.
  destruct (@untitled_not_exported C) as (Hsoup & Hfile & Hmem & Hstage).
  split; [|split; [|split]].
  - apply Hsoup. vm_compute. repeat constructor.
  - exists ∅, []. split; [vm_compute; reflexivity|].
    apply (Hfile (lit "page_2.html") Sample.untitled_markup []
             {[ lit "page_2.html" := Utf8 Sample.untitled_markup ]} ∅ []).
    + vm_compute. reflexivity.
    + vm_compute. reflexivity.
    + vm_compute. repeat constructor.
    + vm_compute. reflexivity.
  - eexists. split; [vm_compute; reflexivity|]. split; [reflexivity|].
    apply Hmem. vm_compute. reflexivity.
  - eexists _, _. split; [vm_compute; reflexivity|]. split; [reflexivity|].
    apply (Hstage ∅ ∅). vm_compute. reflexivity.
Defined.

Section Listing.
Context `{Collaborators}.

Lemma elem_of_html_names f names :
  f ∈ List.filter is_html names <-> f ∈ names /\ is_html f = true.
Proof. by rewrite !list_elem_of_In, filter_In. Qed.

Lemma staged_present i contents d f :
  is_Some (d !! f) -> is_Some (staged i contents d !! f).
Proof.
  revert i d. induction contents as [|c rest IH]; intros i d Hf; [done|].
  cbn [staged]. apply IH. rewrite lookup_insert. by case_decide.
Qed.

(** After the first loop the file of every index is there. *)
Lemma staged_page_file i contents d k :
  (k < length contents)%nat ->
  is_Some (staged i contents d !! Staging.page_file (i + k)).
Proof.
  revert i d k. induction contents as [|c rest IH]; intros i d k Hk;
    cbn [length] in Hk; [lia|].
  cbn [staged]. destruct k as [|k].
  - rewrite Nat.add_0_r. apply staged_present. by rewrite lookup_insert_eq.
  - replace (i + S k)%nat with (S i + k)%nat by lia. apply IH. lia.
Qed.

(** After a second loop that ended well no [.html] file is left. *)
Lemma collect_removes_html d d' data f :
  listdir_spec ->
  Staging.collect d = (d', Ok data) ->
  is_html f = true ->
  d' !! f = None.
Proof.
  intros Hls (main_page & pages & recs & _ & _ & _ & _ & Hd')%staging_collect_ok Hf.
  rewrite Hd'. case_bool_decide as Hin; [done|].
  destruct (Hls (staged 1 (content <$> pages) d)) as [_ Hlist].
  rewrite elem_of_html_names in Hin.
  destruct (staged 1 (content <$> pages) d !! f) eqn:Hlook; [|done].
  exfalso. apply Hin. split; [|done]. apply Hlist. by eexists.
Qed.

End Listing.

(** C9. In the staging scripts the body of the second loop removes the
    file it has parsed, whether or not its record was appended; and after a
    run that ended well no staged file [page_i.html] is left (no file with
    a name ending in [.html] is), each of them having been written by the
    first loop. *)
Theorem staged_files_removed `{Collaborators} (d d' : gmap str entry) :
  listdir_spec ->
  Staging.main d = (d', Ok tt) ->
  (forall filename data dd markup r,
     is_html filename = true -> dd !! filename = Some (Utf8 markup) ->
     staged_record (BeautifulSoup (universal_newlines markup)) = Ok r ->
     Staging.extract_file filename data dd
     = (delete filename dd, Ok (append_if_title data r)))
  /\ (forall f, is_html f = true -> d' !! f = None)
  /\ exists main_page pages,
       goto toc_url = Ok main_page
       /\ length pages = length (extract_links main_page)
       /\ forall i, (1 <= i <= length (extract_links main_page))%nat ->
            is_Some (staged 1 (content <$> pages) d !! Staging.page_file i)
            /\ d' !! Staging.page_file i = None.
Proof.
  intros Hls Hrun. rewrite staging_main_unfold in Hrun.
  destruct (Staging.collect d) as [d2 [data|e]] eqn:Hcollect; [|done].
  apply export_ok in Hrun as [_ ->].
  assert (forall f, is_html f = true ->
            <[csv_path := Utf8 (to_csv (DataFrame data))]> d2 !! f = None)
    as Hgone.
  { intros f Hf. rewrite lookup_insert_ne by (symmetry; by apply html_not_csv).
    by apply (collect_removes_html d d2 data). }
  split; [|split; [done|]].
  - intros filename data0 dd markup r Hf Hdd Hr.
    by rewrite (extract_file_html filename data0 dd markup Hf Hdd), Hr.
  - apply staging_collect_ok in Hcollect
      as (main_page & pages & recs & Hmain & Hpages & _).
    exists main_page, pages. split; [done|].
    apply Forall2_length in Hpages. split; [done|].
    intros i Hi. split; [|apply Hgone, page_file_is_html].
    replace i with (1 + (i - 1))%nat by lia. apply staged_page_file.
    rewrite length_fmap. lia.
Qed.

Lemma staged_files_removed_witness :
  let C := Sample.collaborators Sample.toc in
  exists d', Staging.main Sample.old_dir = (d', Ok tt)
    /\ d' !! lit "page_1.html" = None
    /\ d' !! lit "page_2.html" = None
    /\ d' !! lit "page_3.html" = None.
Proof.
  intros C.
  pose (d' := fst (@Staging.main C Sample.old_dir)).
  assert (@Staging.main C Sample.old_dir = (d', Ok tt)) as Hrun
    by (vm_compute; reflexivity).
  destruct (@staged_files_removed C Sample.old_dir d'
              (sample_listdir_spec Sample.toc) Hrun) as (_ & Hgone & _).
  exists d'. split; [exact Hrun|].
  split; [|split]; apply Hgone; vm_compute; reflexivity.
Defined.

(** C10. In the staging scripts the second loop goes through every name
    of the directory listing that ends in [.html], in the order of the
    listing, staged by this run or not.  So a [.html] file that was in the
    working directory before the run is removed like the staged ones; and
    when the first loop has not written over it, it is in that list, is
    parsed, and gives a record that is exported when it has a title. *)
Theorem preexisting_html_parsed `{Collaborators} (d d' : gmap str entry)
    (data : list ArticleRecord) (main_page : page) (f markup : str) :
  listdir_spec ->
  goto toc_url = Ok main_page ->
  Staging.collect d = (d', Ok data) ->
  d !! f = Some (Utf8 markup) ->
  is_html f = true ->
  d' !! f = None
  /\ exists pages recs,
       Forall2 (fun href p => goto (base_url ++ href) = Ok p)
         (extract_links main_page) pages
       /\ let d1 := staged 1 (content <$> pages) d in
          Forall2 (fun g r => exists m,
                     d1 !! g = Some (Utf8 m)
                     /\ staged_record (BeautifulSoup (universal_newlines m))
                        = Ok r)
                  (List.filter is_html (listdir d1)) recs
          /\ data = List.filter has_title recs
          /\ ((forall k, (1 <= k <= length (extract_links main_page))%nat ->
                 f <> Staging.page_file k) ->
              f ∈ List.filter is_html (listdir d1)
              /\ exists r, r ∈ recs
                   /\ staged_record
                        (BeautifulSoup (universal_newlines markup)) = Ok r
                   /\ (has_title r = true -> r ∈ data)).
Proof.
  intros Hls Hmain Hrun Hd Hf.
  split; [by apply (collect_removes_html d d' data)|].
  apply staging_collect_ok in Hrun
    as (main_page' & pages & recs & Hmain' & Hpages & Hrecs & -> & _).
  assert (main_page' = main_page) as -> by congruence.
  exists pages, recs. split; [done|].
  cbn zeta in *. set (d1 := staged 1 (content <$> pages) d) in *.
  split; [done|]. split; [done|]. intros Hother.
  assert (d1 !! f = Some (Utf8 markup)) as Hd1.
  { unfold d1. rewrite staged_other; [done|].
    intros k Hk. apply Hother. rewrite length_fmap in Hk.
    apply Forall2_length in Hpages. lia. }
  assert (f ∈ List.filter is_html (listdir d1)) as Hin.
  { apply elem_of_html_names. split; [|done].
    destruct (Hls d1) as [_ Hlist]. apply Hlist. by eexists. }
  split; [done|].
  apply list_elem_of_lookup in Hin as [i Hi].
  destruct (Forall2_lookup_l _ _ _ _ _ Hrecs Hi) as (r & Hr & m & Hm & Hrec).
  assert (m = markup) as -> by congruence.
  exists r. split; [by eapply list_elem_of_lookup_2|]. split; [done|].
  intros Ht. apply list_elem_of_In, filter_In. split; [|done].
  apply list_elem_of_In. by eapply list_elem_of_lookup_2.
Qed.

Lemma preexisting_html_parsed_witness :
  let C := Sample.collaborators Sample.toc in
  exists d' data,
    Staging.collect Sample.old_dir = (d', Ok data)
    /\ (Title <$> data)
       = [Some (lit "Second article"); Some (lit "Old article");
          Some (lit "First article")]
    /\ d' !! lit "old.html" = None.
Proof.
  intros C.
  pose (run := @Staging.collect C Sample.old_dir).
  assert (exists data, run = (fst run, Ok data)
            /\ (Title <$> data)
               = [Some (lit "Second article"); Some (lit "Old article");
                  Some (lit "First article")]) as (data & Hrun & Htitles)
    by (eexists; split; vm_compute; reflexivity).
  exists (fst run), data. split; [exact Hrun|]. split; [exact Htitles|].
  destruct (@preexisting_html_parsed C Sample.old_dir (fst run) data
              Sample.toc (lit "old.html") (Sample.article_markup "Old article")
              (sample_listdir_spec Sample.toc)) as [Hgone _].
  - vm_compute. reflexivity.
  - exact Hrun.
  - vm_compute. reflexivity.
  - vm_compute. reflexivity.
  - exact Hgone.
Defined.

(** C4 (as the code has it). When the listing page has no anchor whose
    [href] begins with [/doi/abs/], [extract_links] returns the empty list
    and the in-memory script ends without exception with no record; the
    table it exports has no row and no column either, the columns being the
    keys of the records.  The staging scripts do the same when the listing
    of the working directory has no name ending in [.html]. *)
Theorem no_links_empty_table `{Collaborators} (main_page : page) :
  goto toc_url = Ok main_page ->
  Forall (fun n => doi_anchor n = false) (descendants (page_dom main_page)) ->
  extract_links main_page = []
  /\ InMemory.collect = Ok []
  /\ DataFrame [] = {| columns := []; rows := [] |}
  /\ (forall d, InMemory.main d
        = (<[csv_path := Utf8 (to_csv {| columns := []; rows := [] |})]> d,
           Ok tt))
  /\ (forall d, Forall (fun f => is_html f = false) (listdir d) ->
        Staging.collect d = (d, Ok [])
        /\ Staging.main d
           = (<[csv_path := Utf8 (to_csv {| columns := []; rows := [] |})]> d,
              Ok tt)).
Proof.
  intros Hmain Hlinks%extract_links_none.
  assert (InMemory.collect = Ok []) as Hmem.
  { unfold InMemory.collect, mbind, result_bind. by rewrite Hmain, Hlinks. }
  split; [done|]. split; [done|]. split; [done|]. split.
  - intros d. by rewrite in_memory_main_unfold, Hmem.
  - intros d Hnames.
    assert (Staging.collect d = (d, Ok [])) as Hst.
    { unfold Staging.collect, mbind, M_bind, lift. rewrite Hmain, Hlinks.
      cbn [Staging.stage]. unfold mret, M_ret.
      by rewrite extract_files_none. }
    split; [done|]. by rewrite staging_main_unfold, Hst.
Qed.

Lemma no_links_empty_table_witness :
  let C := Sample.collaborators Sample.empty_toc in
  let d : gmap str entry := {[ lit "notes.txt" := Utf8 (lit "to do") ]} in
  extract_links Sample.empty_toc = []
  /\ InMemory.main d = (<[csv_path := Utf8 [10] ]> d, Ok tt)
  /\ Staging.main d = (<[csv_path := Utf8 [10] ]> d, Ok tt).
Proof.
  intros C d.
  destruct (@no_links_empty_table C Sample.empty_toc)
    as (Hlinks & _ & _ & Hmem & Hst).
  - vm_compute. reflexivity.
  - vm_compute. repeat constructor.
  - split; [exact Hlinks|]. split; [exact (Hmem d)|].
    apply (Hst d). vm_compute. repeat constructor.
Defined.

(** C4 as stated fails.  With no article link on the listing page, the
    table of the in-memory script has no column, so it is not the table of
    the five column names; and the staging scripts, started in a directory
    that holds [old.html], export the record of that file. *)
Lemma no_links_table_differs :
  let C := Sample.collaborators Sample.empty_toc in
  extract_links Sample.empty_toc = []
  /\ InMemory.collect = Ok []
  /\ columns (DataFrame []) = []
  /\ DataFrame [] <> {| columns := column_names; rows := [] |}
  /\ exists r,
       snd (Staging.collect Sample.old_dir) = Ok [r]
       /\ Title r = Some (lit "Old article")
       /\ rows (DataFrame [r]) <> [].
Proof.
  intros C. split; [vm_compute; reflexivity|]. split; [vm_compute; reflexivity|].
  split; [reflexivity|]. split; [vm_compute; discriminate|].
  eexists. split; [vm_compute; reflexivity|]. split; [reflexivity|].
  vm_compute. discriminate.
Qed.

(** C5 (as the code has it). In the in-memory script a run ends well
    exactly when every link is fetched and parsed without exception, and
    the records it exports are those with a title, in the order of the
    links on the listing page.  In the staging scripts the records of a run
    that ended well are those with a title among the [.html] files of the
    working directory after the first loop, in the order in which
    [os.listdir] lists these files. *)
Theorem records_follow_order `{Collaborators} :
  (forall data,
     InMemory.collect = Ok data <->
     exists main_page pages recs,
       goto toc_url = Ok main_page
       /\ Forall2 (fun href p => goto (base_url ++ href) = Ok p)
            (extract_links main_page) pages
       /\ Forall2 (fun p r =>
                     InMemory.extract_data_from_html (content p) = Ok r)
            pages recs
       /\ data = List.filter has_title recs)
  /\ (forall d d' data,
        Staging.collect d = (d', Ok data) ->
        exists main_page pages recs,
          goto toc_url = Ok main_page
          /\ Forall2 (fun href p => goto (base_url ++ href) = Ok p)
               (extract_links main_page) pages
          /\ let d1 := staged 1 (content <$> pages) d in
             Forall2 (fun f r => exists markup,
                        d1 !! f = Some (Utf8 markup)
                        /\ staged_record
                             (BeautifulSoup (universal_newlines markup))
                           = Ok r)
                     (List.filter is_html (listdir d1)) recs
             /\ data = List.filter has_title recs).
Proof.
  split.
  - intros data. unfold InMemory.collect, mbind, result_bind. split.
    + destruct (goto toc_url) as [main_page|e]; [|done].
      intros (pages & recs & Hp & Hr & ->)%visit_ok.
      by exists main_page, pages, recs.
    + intros (main_page & pages & recs & -> & Hp & Hr & ->).
      apply visit_ok. by exists pages, recs.
  - intros d d' data
      (main_page & pages & recs & Hmain & Hp & Hr & Hdata & _)%staging_collect_ok.
    by exists main_page, pages, recs.
Qed.

Lemma records_follow_order_witness :
  let C := Sample.collaborators_rev Sample.toc in
  (exists data, InMemory.collect = Ok data
     /\ (Title <$> data)
        = [Some (lit "First article"); Some (lit "Second article")])
  /\ (exists d' data, Staging.collect ∅ = (d', Ok data)
        /\ (Title <$> data)
           = [Some (lit "First article"); Some (lit "Second article")]).
Proof.
  intros C. destruct (@records_follow_order C) as [Hmem Hst]. split.
  - eexists. split.
    + apply Hmem.
      exists Sample.toc,
        [Sample.rendered (Sample.article_markup "First article");
         Sample.rendered Sample.untitled_markup;
         Sample.rendered (Sample.article_markup "Second article")].
      eexists [_; _; _].
      split; [vm_compute; reflexivity|].
      split; [repeat constructor; vm_compute; reflexivity|].
      split; [repeat constructor; vm_compute; reflexivity|].
      reflexivity.
    + vm_compute. reflexivity.
  - pose (run := @Staging.collect C ∅).
    assert (exists data, run = (fst run, Ok data)
              /\ (Title <$> data)
                 = [Some (lit "First article"); Some (lit "Second article")])
      as (data & Hrun & Htitles) by (eexists; split; vm_compute; reflexivity).
    destruct (Hst ∅ (fst run) data Hrun) as (main_page & _).
    exists (fst run), data. split; [exact Hrun|exact Htitles].
Defined.

(** C5 as stated fails for the staging scripts.  The links of the listing
    page are [/doi/abs/10.1177/a], [/doi/abs/10.1177/n] (a page without
    title) and [/doi/abs/10.1177/b]; the system lists the staged files as
    [page_3.html], [page_2.html], [page_1.html]; the record of the third
    link is exported before the record of the first.  The in-memory script
    on the same site exports them in the order of the links. *)
Lemma staging_order_differs :
  let C := Sample.collaborators Sample.toc in
  extract_links Sample.toc
  = [lit "/doi/abs/10.1177/a"; lit "/doi/abs/10.1177/n";
     lit "/doi/abs/10.1177/b"]
  /\ listdir (staged 1 [Sample.article_markup "First article";
                        Sample.untitled_markup;
                        Sample.article_markup "Second article"] ∅)
     = [lit "page_3.html"; lit "page_2.html"; lit "page_1.html"]
  /\ (exists data, snd (Staging.collect ∅) = Ok data
        /\ (Title <$> data)
           = [Some (lit "Second article"); Some (lit "First article")])
  /\ (exists data, InMemory.collect = Ok data
        /\ (Title <$> data)
           = [Some (lit "First article"); Some (lit "Second article")]).
Proof.
  intros C. split; [vm_compute; reflexivity|]. split; [vm_compute; reflexivity|].
  split; eexists; split; vm_compute; reflexivity.
Qed.

(** * Further properties of the scripts *)

(** ** The link collector *)

(** X1. [extract_links] gives one link for each selected anchor, doubles kept,
    in the order of the document, and each link begins with [/doi/abs/]. *)
Theorem extract_links_selected (p : page) :
  length (extract_links p) = length (query_selector_all p)
  /\ Forall (fun href => startswith href (lit "/doi/abs/") = true)
       (extract_links p)
  /\ Forall2 (fun link href => get_attribute (lit "href") link = Some href)
       (query_selector_all p) (extract_links p).
Proof.
  unfold extract_links, query_selector_all.
  induction (descendants (page_dom p)) as [|n l (IHlen & IHpre & IHall)];
    [by repeat constructor|].
  cbn [List.filter]. destruct (doi_anchor n) eqn:Hn; [|done].
  destruct n as [nm attrs cs|]; [|done]. unfold doi_anchor, is_tag in Hn.
  apply andb_prop in Hn as [_ Hhref].
  destruct (attrs !! lit "href") as [h|] eqn:Hh; [|done].
  cbn [omap list_omap get_attribute]. rewrite Hh. cbn [length].
  split; [f_equal; exact IHlen|].
  split; constructor; [exact Hhref|exact IHpre|exact Hh|exact IHall].
Qed.

(** ** The title *)

(** X2. The first [meta] tag named [dc.Title] decides the title alone: the
    title is its [content], and [None] when it has none, whatever tags
    follow it. *)
Theorem title_of_first_meta (soup : node) (pre post : list node)
    (name : str) (attrs : gmap str str) (contents : list node) :
  descendants soup = pre ++ Tag name attrs contents :: post ->
  Forall (fun n => is_tag (lit "meta") (attr_is (lit "name") title_marker) n
                   = false) pre ->
  is_tag (lit "meta") (attr_is (lit "name") title_marker)
    (Tag name attrs contents) = true ->
  title_of soup = attrs !! lit "content".
Proof.
  intros Hdesc Hpre Hmeta. unfold title_of, find, find_all. rewrite Hdesc.
  clear Hdesc. induction Hpre as [|n pre Hn _ IH].
  - cbn [app List.filter]. rewrite Hmeta. reflexivity.
  - cbn [app List.filter]. rewrite Hn. exact IH.
Qed.

Lemma title_of_first_meta_witness :
  title_of
    (Sample.document
       [Sample.elem "meta" [("name", "dc.Title")] [];
        Sample.elem "meta" [("name", "dc.Title"); ("content", "Late")] []])
  = None.
Proof.
  apply (title_of_first_meta _ []
           [Sample.elem "meta" [("name", "dc.Title"); ("content", "Late")] []]
           (lit "meta") (Sample.attributes [("name", "dc.Title")]) []).
  - vm_compute. reflexivity.
  - constructor.
  - vm_compute. reflexivity.
Defined.

(** ** The staging files *)

Section PageFiles.

Lemma lit_inj (a b : string) : lit a = lit b -> a = b.
Proof.
  revert b. induction a as [|x a IH]; intros [|y b] Hab; try done.
  cbn in Hab. injection Hab as Hxy Hab. f_equal; [|by apply IH].
  by rewrite <-(ascii_N_embedding x), <-(ascii_N_embedding y), Hxy.
Qed.

Lemma str_of_nat_inj i j : str_of_nat i = str_of_nat j -> i = j.
Proof.
  intros Hij%lit_inj.
  assert (forall n, Nat.to_uint n <> Decimal.Nil) as Hnil.
  { intros n. rewrite <-(DecimalNat.Unsigned.of_to n) at 1.
    rewrite DecimalNat.Unsigned.to_of. apply DecimalFacts.unorm_nonnil. }
  apply DecimalNat.Unsigned.to_uint_inj.
  pose proof (NilZero.usu _ (Hnil i)) as Hi.
  pose proof (NilZero.usu _ (Hnil j)) as Hj.
  rewrite Hij in Hi. congruence.
Qed.

End PageFiles.

Section ReadBack.
Context `{Collaborators}.

Lemma page_file_eq i j : Staging.page_file i = Staging.page_file j -> i = j.
Proof.
  unfold Staging.page_file. intros Hij%app_inv_head%app_inv_tail.
  by apply str_of_nat_inj.
Qed.

Lemma staged_fresh i contents d f :
  (forall k, (i <= k)%nat -> f <> Staging.page_file k) ->
  staged i contents d !! f = d !! f.
Proof.
  intros Hf. apply staged_other. intros k Hk. apply Hf. lia.
Qed.

Lemma staged_lookup i k contents d c :
  contents !! k = Some c ->
  staged i contents d !! Staging.page_file (i + k) = Some (Utf8 c).
Proof.
  revert i k d. induction contents as [|c0 rest IH]; intros i k d Hk; [done|].
  cbn [staged]. destruct k as [|k].
  - injection Hk as ->. rewrite Nat.add_0_r, staged_fresh.
    + apply lookup_insert_eq.
    + intros j Hj Hij%page_file_eq. lia.
  - replace (i + S k)%nat with (S i + k)%nat by lia. by apply IH.
Qed.

End ReadBack.

(** X3. Two links never share a staging file: [page_i.html] and [page_j.html]
    are the same name only for [i = j]. *)
Theorem page_file_inj (i j : nat) :
  Staging.page_file i = Staging.page_file j -> i = j.
Proof.
  unfold Staging.page_file. intros Hij.
  apply app_inv_head, app_inv_tail in Hij. by apply str_of_nat_inj.
Qed.

Lemma page_file_inj_witness : 12%nat = 12%nat.
Proof. apply (page_file_inj 12 12). reflexivity. Defined.

(** X4. After a first loop that ended well, the file of the link of position
    [k] holds the content of the page of that link, also when the same
    address occurs twice among the links. *)
Theorem staged_read_back `{Collaborators} (i k : nat) (hrefs : list str)
    (d d1 : gmap str entry) (href : str) :
  Staging.stage i hrefs d = (d1, Ok tt) ->
  hrefs !! k = Some href ->
  exists p, goto (base_url ++ href) = Ok p
            /\ d1 !! Staging.page_file (i + k) = Some (Utf8 (content p)).
Proof.
  intros (pages & Hpages & _ & ->)%stage_ok Hk.
  destruct (Forall2_lookup_l _ _ _ _ _ Hpages Hk) as (p & Hp & Hgoto).
  exists p. split; [done|]. apply staged_lookup.
  by rewrite list_lookup_fmap, Hp.
Qed.

Lemma staged_read_back_witness :
  let C := Sample.collaborators Sample.toc in
  exists p,
    goto (base_url ++ lit "/doi/abs/10.1177/n") = Ok p
    /\ fst (Staging.stage 1 (extract_links Sample.toc) ∅) !! lit "page_2.html"
       = Some (Utf8 (content p)).
Proof.
  intros C.
  apply (@staged_read_back C 1 1 (extract_links Sample.toc) ∅
           (fst (Staging.stage 1 (extract_links Sample.toc) ∅))).
  - vm_compute. reflexivity.
  - vm_compute. reflexivity.
Defined.

(** ** The authors, the date and the DOI *)

Section Fields.

Lemma join_elem sep l x :
  x ∈ join sep l -> x ∈ sep \/ exists t, t ∈ l /\ x ∈ t.
Proof.
  induction l as [|t l IH]; [by intros ?%elem_of_nil|].
  destruct l as [|t' l].
  - intros Hx. right. exists t. split; [apply elem_of_cons; by left|done].
  - change (join sep (t :: t' :: l)) with (t ++ sep ++ join sep (t' :: l)).
    intros [Hx|[Hx|Hx]%elem_of_app]%elem_of_app.
    + right. exists t. split; [apply elem_of_cons; by left|done].
    + by left.
    + destruct (IH Hx) as [?|(u & Hu & Hxu)]; [by left|].
      right. exists u. split; [apply elem_of_cons; by right|done].
Qed.

Lemma staging_authors_cleaned soup :
  Staging.authors_of soup =
  match clean_authors <$> (get_text true <$> author_divs soup) with
  | [] => None
  | texts => Some (join (lit " ") texts)
  end.
Proof.
  unfold Staging.authors_of. rewrite <-!list_fmap_compose.
  by destruct (author_divs soup).
Qed.

Lemma lstrip_head s :
  match lstrip s with [] => True | c :: _ => isspace c = false end.
Proof.
  induction s as [|c s IH]; [done|]. cbn [lstrip].
  by destruct (isspace c) eqn:Hc.
Qed.

Lemma lstrip_snoc s c :
  isspace c = false -> lstrip (s ++ [c]) = lstrip s ++ [c].
Proof.
  intros Hc. induction s as [|x s IH]; cbn [app lstrip]; [by rewrite Hc|].
  by destruct (isspace x).
Qed.

Lemma strip_ends s :
  match strip s with [] => True | c :: _ => isspace c = false end
  /\ match last (strip s) with Some c => isspace c = false | None => True end.
Proof.
  unfold strip, rstrip. split.
  - pose proof (lstrip_head s) as Hhead.
    destruct (lstrip s) as [|c t]; [done|].
    rewrite reverse_cons, (lstrip_snoc _ _ Hhead), reverse_app. done.
  - rewrite last_reverse.
    pose proof (lstrip_head (reverse (lstrip s))) as Hhead.
    by destruct (lstrip (reverse (lstrip s))).
Qed.

Lemma split1_at_sep c before after :
  c ∉ before -> split1 c (before ++ c :: after) = [before; after].
Proof.
  induction before as [|x before IH]; intros Hc.
  - cbn [app split1]. by rewrite N.eqb_refl.
  - apply not_elem_of_cons in Hc as [Hx Hc]. cbn [app split1].
    destruct (N.eqb_spec x c) as [->|_]; [done|]. by rewrite (IH Hc).
Qed.

Lemma elem_of_first (c : N) (s : str) :
  c ∈ s -> exists b a, s = b ++ c :: a /\ c ∉ b.
Proof.
  induction s as [|x s IH]; [by intros ?%elem_of_nil|].
  destruct (decide (x = c)) as [->|Hx].
  - intros _. exists [], s. split; [done|apply not_elem_of_nil].
  - intros [?|Hc]%elem_of_cons; [done|].
    destruct (IH Hc) as (b & a & -> & Hb). exists (x :: b), a.
    split; [done|]. apply not_elem_of_cons. split; [done|exact Hb].
Qed.

Lemma date_text_split div before after :
  get_text true div = before ++ 58 :: after ->
  58 ∉ before ->
  date_text div = Ok (strip after).
Proof.
  intros Htext Hbefore. unfold date_text.
  by rewrite Htext, (split1_at_sep _ _ _ Hbefore).
Qed.

Lemma date_text_raises div e : date_text div = Raise e -> e = IndexError.
Proof.
  unfold date_text, index.
  destruct (split1 58 (get_text true div) !! 1%nat); [done|]. by intros [= <-].
Qed.

Lemma staging_date_loop_raises divs e :
  Staging.date_loop divs = Raise e -> e = IndexError.
Proof.
  induction divs as [|div divs IH]; [done|]. cbn [Staging.date_loop].
  destruct (date_label div); [|done].
  unfold fmap, result_fmap. destruct (date_text div) eqn:Hd; [done|].
  intros [= <-]. by apply date_text_raises in Hd.
Qed.

Lemma in_memory_date_loop_raises divs acc e :
  InMemory.date_loop divs acc = Raise e -> e = IndexError.
Proof.
  revert acc. induction divs as [|div divs IH]; intros acc; [done|].
  cbn [InMemory.date_loop]. destruct (date_label div); [|apply IH].
  unfold mbind, result_bind. destruct (date_text div) eqn:Hd; [apply IH|].
  intros [= <-]. by apply date_text_raises in Hd.
Qed.

Lemma staged_record_raises soup e : staged_record soup = Raise e -> e = IndexError.
Proof.
  unfold staged_record, Staging.publication_date_of, mbind, result_bind.
  destruct (Staging.date_loop _) eqn:Hd; [done|].
  intros [= <-]. by apply staging_date_loop_raises in Hd.
Qed.

Lemma extract_data_raises soup e :
  InMemory.extract_data soup = Raise e -> e = IndexError.
Proof.
  unfold InMemory.extract_data, mbind, result_bind.
  destruct (InMemory.date_loop _ _) eqn:Hd; [done|].
  intros [= <-]. by apply in_memory_date_loop_raises in Hd.
Qed.

(** With at most one author element, one labelled [div] and one script
    with a DOI, the two scripts build the same record or raise alike. *)
Lemma extract_data_staged_record soup :
  (length (author_divs soup) <= 1)%nat ->
  (length (List.filter date_label (history_divs soup)) <= 1)%nat ->
  (length (List.filter doi_hit (script_tags soup)) <= 1)%nat ->
  InMemory.extract_data soup = staged_record soup.
Proof.
  intros Hauthors Hdate Hdoi.
  unfold InMemory.extract_data, staged_record, Staging.publication_date_of,
    Staging.doi_of.
  by rewrite (authors_of_one _ Hauthors), (date_loops_one _ Hdate),
    (doi_loops_one _ Hdoi).
Qed.

End Fields.

(** X5. The authors field holds no parenthesis, in the staging scripts and in
    the in-memory script. *)
Theorem authors_no_paren (soup : node) (authors : str) :
  Staging.authors_of soup = Some authors
  \/ InMemory.authors_of soup = Some authors ->
  (40 ∉ authors) /\ (41 ∉ authors).
Proof.
  intros [Hst|Hmem].
  - rewrite staging_authors_cleaned in Hst.
    assert (forall x, x ∈ authors -> x <> 40 /\ x <> 41) as Hx.
    { intros x Hin.
      destruct (clean_authors <$> (get_text true <$> author_divs soup))
        as [|t ts] eqn:Hts; [done|].
      apply (inj Some) in Hst. subst authors. rewrite <-Hts in Hin.
      apply join_elem in Hin as [Hin|(u & Hu & Hin)].
      - change (lit " ") with [32] in Hin.
        by apply list_elem_of_singleton in Hin as ->.
      - apply list_elem_of_fmap in Hu as (v & -> & _).
        destruct (clean_authors_no_paren v) as [Hopen Hclose].
        split; intros ->; done. }
    split; intros Hin; by destruct (Hx _ Hin).
  - unfold InMemory.authors_of in Hmem.
    destruct (author_divs soup); [done|]. injection Hmem as <-.
    apply clean_authors_no_paren.
Qed.

Lemma authors_no_paren_witness :
  (40 ∉ lit "Jane Doe.Dept of Y. John Roe")
  /\ (41 ∉ lit "Jane Doe.Dept of Y. John Roe").
Proof.
  apply (authors_no_paren Sample.two_authors_soup). left.
  vm_compute. reflexivity.
Defined.

(** X6. The date is what follows the first colon of the text of the labelled
    [div], later colons included, without the whitespace at its two
    ends. *)
Theorem date_text_after_first_colon (div : node) (before after : str) :
  get_text true div = before ++ 58 :: after ->
  58 ∉ before ->
  date_text div = Ok (strip after)
  /\ match strip after with [] => True | c :: _ => isspace c = false end
  /\ match last (strip after) with
     | Some c => isspace c = false
     | None => True
     end.
Proof.
  intros Htext Hbefore. split; [|apply strip_ends].
  unfold date_text. by rewrite Htext, (split1_at_sep _ _ _ Hbefore).
Qed.

Lemma date_text_after_first_colon_witness :
  date_text
    (Sample.elem "div" []
       [Sample.elem "b" [] [Sample.text "Article first published online:"];
        Sample.text " January 5, 2024 at 10:30 "])
  = Ok (lit "January 5, 2024 at 10:30").
Proof.
  refine (proj1 (date_text_after_first_colon _
                   (lit "Article first published online")
                   (lit "January 5, 2024 at 10:30") _ _)).
  - vm_compute. reflexivity.
  - refine (bool_decide_unpack _ _). vm_compute. exact I.
Defined.

(** X7. The staging scripts take the first labelled [div] and the first script
    in which a DOI is found. *)
Theorem staging_takes_first (soup : node) :
  Staging.publication_date_of soup
  = match List.filter date_label (history_divs soup) with
    | [] => Ok None
    | div :: _ => Some <$> date_text div
    end
  /\ Staging.doi_of soup
     = match List.filter doi_hit (script_tags soup) with
       | [] => None
       | script :: _ => doi_match script
       end.
Proof.
  unfold Staging.publication_date_of, Staging.doi_of. split.
  - induction (history_divs soup) as [|div divs IH]; [done|].
    cbn [Staging.date_loop List.filter]. by destruct (date_label div).
  - induction (script_tags soup) as [|script scripts IH]; [done|].
    cbn [Staging.doi_loop List.filter]. unfold doi_hit at 1.
    destruct (doi_script script), (doi_match script) eqn:Hm; done.
Qed.

(** X8. The in-memory script takes the last script in which a DOI is found,
    and, when every labelled [div] has a colon in its text, the last
    labelled [div]. *)
Theorem in_memory_takes_last (soup : node) :
  Forall (fun div => 58 ∈ get_text true div)
    (List.filter date_label (history_divs soup)) ->
  InMemory.date_loop (history_divs soup) None
  = match last (List.filter date_label (history_divs soup)) with
    | Some div => Some <$> date_text div
    | None => Ok None
    end
  /\ InMemory.doi_loop (script_tags soup) None
     = match last (List.filter doi_hit (script_tags soup)) with
       | Some script => doi_match script
       | None => None
       end.
Proof.
  intros Hcolon. split.
  - generalize (@None str) as acc. revert Hcolon.
    induction (history_divs soup) as [|div divs IH]; intros Hcolon acc; [done|].
    cbn [InMemory.date_loop List.filter] in *.
    destruct (date_label div); [|by apply IH].
    apply Forall_cons in Hcolon as [Hdiv Hcolon].
    apply elem_of_first in Hdiv as (b & a & Hba & Hb).
    pose proof (date_text_split div b a Hba Hb) as Hd.
    rewrite Hd. unfold mbind, result_bind. rewrite (IH Hcolon).
    destruct (List.filter date_label divs) as [|d' ds] eqn:Hds;
      [cbn [last]; by rewrite Hd|]. rewrite last_cons_cons.
    destruct (last (d' :: ds)) eqn:Hlast; [done|]. by apply last_None in Hlast.
  - generalize (@None str) as acc.
    induction (script_tags soup) as [|script scripts IH]; intros acc; [done|].
    cbn [InMemory.doi_loop List.filter]. unfold doi_hit at 1 3.
    destruct (doi_script script), (doi_match script) as [doi|] eqn:Hm;
      try apply IH.
    rewrite IH. destruct (List.filter doi_hit scripts) as [|s' ss] eqn:Hss;
      [cbn [last]; by rewrite Hm|]. rewrite last_cons_cons.
    destruct (last (s' :: ss)) eqn:Hlast; [done|]. by apply last_None in Hlast.
Qed.

Lemma in_memory_takes_last_witness :
  InMemory.date_loop (history_divs Sample.two_dates_soup) None
  = Ok (Some (lit "7 March 2024"))
  /\ InMemory.doi_loop (script_tags Sample.two_dates_soup) None
     = Some (lit "10.1177/2")
  /\ (date_text <$> head (List.filter date_label
                            (history_divs Sample.two_dates_soup))
      = Some (Ok (lit "5 January 2024")))
  /\ (doi_match <$> head (List.filter doi_hit
                            (script_tags Sample.two_dates_soup))
      = Some (Some (lit "10.1177/1"))).
Proof.
  destruct (in_memory_takes_last Sample.two_dates_soup) as [Hdate Hdoi].
  - vm_compute. repeat constructor.
  - split; [rewrite Hdate; vm_compute; reflexivity|].
    split; [rewrite Hdoi; vm_compute; reflexivity|].
    split; vm_compute; reflexivity.
Defined.

(** ** What the patterns match *)

Section Matches.

Lemma star_split_res k cont s r :
  star k cont s = Some r ->
  exists pre post r',
    s = pre ++ post /\ Forall (fun c => in_class k c = true) pre
    /\ cont post = Some r'
    /\ r = ((length pre + fst r')%nat,
            List.map (fun m => (length pre + m)%nat) (snd r')).
Proof.
  revert r. induction s as [|c s IH]; intros r; cbn [star].
  - intros Hc. exists [], [], r. repeat split; [done..|].
    destruct r as [n ms]. cbn. by rewrite List.map_id.
  - assert (cont (c :: s) = Some r ->
            exists pre post r',
              c :: s = pre ++ post /\ Forall (fun c => in_class k c = true) pre
              /\ cont post = Some r'
              /\ r = ((length pre + fst r')%nat,
                      List.map (fun m => (length pre + m)%nat) (snd r')))
      as Hstop.
    { intros Hc. exists [], (c :: s), r. repeat split; [done..|].
      destruct r as [n ms]. cbn. by rewrite List.map_id. }
    destruct (in_class k c) eqn:Hk; [|done].
    destruct (star k cont s) as [r0|] eqn:Hs; [|done].
    intros [= <-].
    destruct (IH r0 eq_refl) as (pre & post & r' & -> & Hpre & Hr' & ->).
    exists (c :: pre), post, r'. repeat split; [by constructor|done|].
    unfold shift. cbn. by rewrite List.map_map.
Qed.

Lemma match_once k p s r :
  match_here (Cls Once k :: p) s = Some r ->
  exists c s' r',
    s = c :: s' /\ in_class k c = true /\ match_here p s' = Some r'
    /\ r = shift r'.
Proof.
  cbn [match_here]. destruct s as [|c s']; [done|].
  destruct (in_class k c) eqn:Hk; [|done].
  destruct (match_here p s') as [r'|] eqn:Hr'; [|done].
  intros [= <-]. by exists c, s', r'.
Qed.

Lemma match_star k p s r :
  match_here (Cls Star k :: p) s = Some r ->
  exists pre post r',
    s = pre ++ post /\ Forall (fun c => in_class k c = true) pre
    /\ match_here p post = Some r'
    /\ r = ((length pre + fst r')%nat,
            List.map (fun m => (length pre + m)%nat) (snd r')).
Proof. cbn [match_here]. apply star_split_res. Qed.

Lemma match_plus k p s r :
  match_here (Cls Plus k :: p) s = Some r ->
  exists c pre post r',
    s = c :: pre ++ post /\ in_class k c = true
    /\ Forall (fun c => in_class k c = true) pre
    /\ match_here p post = Some r'
    /\ r = (S (length pre + fst r'),
            List.map (fun m => S (length pre + m)) (snd r')).
Proof.
  cbn [match_here]. destruct s as [|c s']; [done|].
  destruct (in_class k c) eqn:Hk; [|done].
  destruct (star k (match_here p) s') as [r0|] eqn:Hs; [|done].
  intros [= <-].
  apply star_split_res in Hs as (pre & post & r' & -> & Hpre & Hr' & ->).
  exists c, pre, post, r'. repeat split; [done..|].
  unfold shift. cbn. by rewrite List.map_map.
Qed.

Lemma match_group_open p s r :
  match_here (GroupOpen :: p) s = Some r ->
  exists r', match_here p s = Some r' /\ r = mark r'.
Proof.
  cbn [match_here]. destruct (match_here p s) as [r'|]; [|done].
  intros [= <-]. by exists r'.
Qed.

Lemma match_group_close p s r :
  match_here (GroupClose :: p) s = Some r ->
  exists r', match_here p s = Some r' /\ r = mark r'.
Proof.
  cbn [match_here]. destruct (match_here p s) as [r'|]; [|done].
  intros [= <-]. by exists r'.
Qed.

Lemma doi_re_unfold :
  doi_re =
  [Cls Once (Chr 100); Cls Once (Chr 111); Cls Once (Chr 105);
   Cls Star Space; Cls Once (Chr 58); Cls Star Space; Cls Once (Chr 39);
   GroupOpen; Cls Plus (NotChr 39); GroupClose; Cls Once (Chr 39)].
Proof. reflexivity. Qed.

Lemma in_class_chr c x : in_class (Chr x) c = true -> c = x.
Proof. cbn. by intros ?%N.eqb_eq. Qed.

Lemma in_class_not_chr c x : in_class (NotChr x) c = true -> c <> x.
Proof. cbn. intros Hc ->. by rewrite N.eqb_refl in Hc. Qed.

(** A match of the DOI pattern: [doi], a colon, a quote, the group, a
    quote; the group is not empty and holds no quote, and the two marks are
    its two ends. *)
Lemma doi_re_match t r :
  match_here doi_re t = Some r ->
  exists head body rest,
    t = head ++ 39 :: body ++ 39 :: rest
    /\ body <> [] /\ (39 ∉ body)
    /\ snd r = [S (length head); (S (length head) + length body)%nat].
Proof.
  rewrite doi_re_unfold. intros Hm.
  apply match_once in Hm as (c1 & t1 & r1 & -> & ->%in_class_chr & Hm & ->).
  apply match_once in Hm as (c2 & t2 & r2 & -> & ->%in_class_chr & Hm & ->).
  apply match_once in Hm as (c3 & t3 & r3 & -> & ->%in_class_chr & Hm & ->).
  apply match_star in Hm as (ws1 & t4 & r4 & -> & _ & Hm & ->).
  apply match_once in Hm as (c5 & t5 & r5 & -> & ->%in_class_chr & Hm & ->).
  apply match_star in Hm as (ws2 & t6 & r6 & -> & _ & Hm & ->).
  apply match_once in Hm as (c7 & t7 & r7 & -> & ->%in_class_chr & Hm & ->).
  apply match_group_open in Hm as (r8 & Hm & ->).
  apply match_plus in Hm
    as (c & body & t9 & r9 & -> & Hc%in_class_not_chr & Hbody & Hm & ->).
  apply match_group_close in Hm as (r10 & Hm & ->).
  apply match_once in Hm as (c11 & rest & r11 & -> & ->%in_class_chr & Hm & ->).
  injection Hm as <-.
  exists (100 :: 111 :: 105 :: ws1 ++ 58 :: ws2), (c :: body), rest.
  split; [cbn [app]; by rewrite <-app_assoc|]. split; [done|]. split.
  - apply not_elem_of_cons. split; [done|].
    intros Hin. rewrite Forall_forall in Hbody.
    by apply Hbody, in_class_not_chr in Hin.
  - cbn. rewrite !length_app. cbn. repeat f_equal; lia.
Qed.

Lemma search_match p s i r :
  search p s = Some (i, r) -> match_here p (drop i s) = Some r.
Proof.
  revert i. induction s as [|c s IH]; intros i; cbn [search].
  - destruct (match_here p []) as [r0|] eqn:Hm; [|done]. by intros [= <- <-].
  - destruct (match_here p (c :: s)) as [r0|] eqn:Hm; [by intros [= <- <-]|].
    destruct (search p s) as [[j r0]|]; [|done].
    intros [= <- <-]. by apply IH.
Qed.

Lemma sub_from_length p skip s :
  match_here p [] = None ->
  (forall t r, match_here p t = Some r -> fst r <> O) ->
  (length (sub_from p (lit ".") skip s) <= length s)%nat.
Proof.
  intros Hnil Hpos. revert skip.
  induction s as [|c s IH]; intros skip; cbn [sub_from].
  - rewrite Hnil. by destruct skip.
  - destruct skip as [|k]; [|cbn [length]; by apply Nat.le_le_succ_r].
    destruct (match_here p (c :: s)) as [[[|k] ms]|] eqn:Hm.
    + by apply Hpos in Hm.
    + change (lit ".") with [46]. cbn [app length]. by apply le_n_S.
    + cbn [length]. by apply le_n_S.
Qed.

Lemma patterns_take_a_character :
  (forall t r, match_here email_re t = Some r -> fst r <> O)
  /\ (forall t r, match_here open_paren_re t = Some r -> fst r <> O)
  /\ (forall t r, match_here close_paren_re t = Some r -> fst r <> O).
Proof.
  split; [|split]; intros t r.
  - rewrite email_re_unfold.
    intros (ws & t1 & r1 & -> & _ & Hm & ->)%match_star.
    apply match_once in Hm as (c & t2 & r2 & _ & _ & _ & ->). cbn. lia.
  - rewrite open_paren_re_unfold.
    intros (ws & t1 & r1 & -> & _ & Hm & ->)%match_star.
    apply match_once in Hm as (c & t2 & r2 & _ & _ & _ & ->). cbn. lia.
  - rewrite close_paren_re_unfold.
    by intros (c & t2 & r2 & _ & _ & _ & ->)%match_once.
Qed.

End Matches.

(** ** The two variants on the same page *)

Section Joining.

Lemma star_ext k c1 c2 s :
  (forall x, c1 x = c2 x) -> star k c1 s = star k c2 s.
Proof.
  intros Hc. induction s as [|c s IH]; cbn [star]; [done|].
  by rewrite IH, (Hc (c :: s)).
Qed.

(** A greedy repetition that stops inside [s] does not see what follows. *)
Lemma star_app_local k cont s t :
  Exists (fun c => in_class k c = false) s ->
  (forall x, x <> [] -> cont (x ++ t) = cont x) ->
  star k cont (s ++ t) = star k cont s.
Proof.
  intros Hstop Hcont. induction s as [|c s IH]; [by apply Exists_nil in Hstop|].
  pose proof (Hcont (c :: s) ltac:(done)) as Hc. cbn [app] in Hc.
  cbn [app star]. rewrite Hc. destruct (in_class k c) eqn:Hk; [|done].
  apply Exists_cons in Hstop as [Hstop|Hstop]; [congruence|].
  by rewrite (IH Hstop).
Qed.

(** A greedy repetition stops at a character that is not in its class. *)
Lemma star_app_stop k cont s t :
  match t with [] => True | c :: _ => in_class k c = false end ->
  star k cont (s ++ t) = star k (fun x => cont (x ++ t)) s.
Proof.
  intros Ht. induction s as [|c s IH]; cbn [app star].
  - destruct t as [|c t]; [done|]. cbn [star]. by rewrite Ht.
  - by rewrite IH.
Qed.

Lemma match_star_eq k p s :
  match_here (Cls Star k :: p) s = star k (match_here p) s.
Proof. reflexivity. Qed.

Lemma match_once_eq k p c s :
  match_here (Cls Once k :: p) (c :: s)
  = if in_class k c then shift <$> match_here p s else None.
Proof. reflexivity. Qed.

Lemma match_plus_eq k p c s :
  match_here (Cls Plus k :: p) (c :: s)
  = if in_class k c then shift <$> star k (match_here p) s else None.
Proof. reflexivity. Qed.

Lemma match_here_length p s r :
  match_here p s = Some r -> (fst r <= length s)%nat.
Proof.
  revert s r. induction p as [|[[| |] k| |] p IH]; intros s r Hm.
  - injection Hm as <-. cbn. lia.
  - apply match_once in Hm as (c & s' & r' & -> & _ & Hm%IH & ->).
    cbn. lia.
  - apply match_star in Hm as (pre & post & r' & -> & _ & Hm%IH & ->).
    rewrite length_app. cbn. lia.
  - apply match_plus in Hm as (c & pre & post & r' & -> & _ & _ & Hm%IH & ->).
    cbn. rewrite length_app. lia.
  - by apply match_group_open in Hm as (r' & Hm%IH & ->).
  - by apply match_group_close in Hm as (r' & Hm%IH & ->).
Qed.


(** [re.sub] goes through a text and what follows a space after it
    separately, when no match in the text sees what follows it and no match
    starts at the space. *)
Lemma sub_from_app_sep p a b skip :
  match_here p [] = None ->
  (forall pre s', a = pre ++ s' -> s' <> [] ->
     match_here p (s' ++ 32 :: b) = match_here p s') ->
  match_here p (32 :: b) = None ->
  (skip <= length a)%nat ->
  sub_from p (lit ".") skip (a ++ 32 :: b)
  = sub_from p (lit ".") skip a ++ 32 :: sub_from p (lit ".") 0 b.
Proof.
  intros Hnil Hlocal Hsep. revert skip.
  induction a as [|c a IH]; intros skip Hskip.
  - destruct skip; [|cbn in Hskip; lia].
    cbn [app sub_from]. by rewrite Hsep, Hnil.
  - assert (forall k, (k <= length a)%nat ->
              sub_from p (lit ".") k (a ++ 32 :: b)
              = sub_from p (lit ".") k a ++ 32 :: sub_from p (lit ".") 0 b)
      as IH'.
    { intros k Hk. apply IH; [|done].
      intros pre s' -> Hs'. by apply (Hlocal (c :: pre)). }
    cbn [app sub_from]. destruct skip as [|k].
    + pose proof (Hlocal [] (c :: a) eq_refl ltac:(done)) as Hm.
      cbn [app] in Hm. rewrite Hm.
      destruct (match_here p (c :: a)) as [[[|k] ms]|] eqn:Hc.
      * rewrite IH' by lia. by rewrite <-app_assoc.
      * apply match_here_length in Hc. cbn in Hc.
        rewrite IH' by lia. by rewrite <-app_assoc.
      * by rewrite IH' by lia.
    + cbn in Hskip. apply IH'. lia.
Qed.

Lemma removelast_fmap {A B} (f : A -> B) l :
  removelast (f <$> l) = f <$> removelast l.
Proof.
  induction l as [|x [|y l] IH]; [done|done|].
  cbn [fmap list_fmap removelast] in *. by rewrite IH.
Qed.

Lemma tail_fmap {A B} (f : A -> B) l : tail (f <$> l) = f <$> tail l.
Proof. by destruct l. Qed.

(** [re.sub] and [' '.join] commute, for a pattern [p] no match of which
    reaches over a joining space: [Q] is what keeps a match inside a text
    that is followed by a space, [P] what keeps a match from starting at
    the space before a text. *)
Lemma sub_join p (P Q : str -> Prop) texts :
  match_here p [] = None ->
  (forall t b pre s', Q t -> t = pre ++ s' -> s' <> [] ->
     match_here p (s' ++ 32 :: b) = match_here p s') ->
  (forall ts, Forall P ts -> match_here p (32 :: join (lit " ") ts) = None) ->
  Forall P (tail texts) ->
  Forall Q (removelast texts) ->
  sub p (lit ".") (join (lit " ") texts)
  = join (lit " ") (sub p (lit ".") <$> texts).
Proof.
  intros Hnil Hlocal Hsep. induction texts as [|t [|t' rest] IH]; intros HP HQ.
  - unfold sub. cbn. by rewrite Hnil.
  - done.
  - cbn [tail] in HP. cbn [removelast] in HQ, IH.
    apply Forall_cons in HQ as [Ht HQ].
    change (join (lit " ") (t :: t' :: rest))
      with (t ++ 32 :: join (lit " ") (t' :: rest)).
    unfold sub in *. rewrite sub_from_app_sep; [|done| |by apply Hsep|lia].
    + rewrite IH; [done| |done]. by apply Forall_cons in HP as [_ ?].
    + intros pre s'. by apply Hlocal.
Qed.


(** A suffix, not empty, of a text that ends with a character that is not
    a space holds such a character. *)
Lemma suffix_not_blank (t pre s' : str) :
  trimmed t -> t = pre ++ s' -> s' <> [] ->
  exists z, last s' = Some z /\ last t = Some z /\ isspace z = false.
Proof.
  intros [_ Hlast] -> Hs'.
  destruct (last s') as [z|] eqn:Hz; [|by apply last_None in Hz].
  assert (last (pre ++ s') = Some z) as Ht.
  { apply last_Some in Hz as [k ->]. by rewrite app_assoc, last_snoc. }
  rewrite Ht in Hlast. by exists z.
Qed.

Lemma last_Exists (s : str) z (P : N -> Prop) :
  last s = Some z -> P z -> Exists P s.
Proof.
  intros [k ->]%last_Some Hz. apply Exists_app. right. by constructor.
Qed.

(** The three patterns on a text followed by a space. *)
Lemma open_paren_local s b :
  Exists (fun c => isspace c = false) s ->
  match_here open_paren_re (s ++ 32 :: b) = match_here open_paren_re s.
Proof.
  intros Hs. rewrite open_paren_re_unfold, !match_star_eq.
  apply star_app_local; [exact Hs|].
  intros [|c x] Hx; [done|]. cbn [app]. by rewrite !match_once_eq.
Qed.

Lemma close_paren_local s b z :
  last s = Some z -> isspace z = false -> z <> 41 ->
  match_here close_paren_re (s ++ 32 :: b) = match_here close_paren_re s.
Proof.
  intros Hlast Hz Hclose. rewrite close_paren_re_unfold.
  destruct s as [|c x]; [done|]. cbn [app]. rewrite !match_once_eq.
  destruct (in_class (Chr 41) c) eqn:Hc; [|done].
  rewrite !match_star_eq. f_equal.
  destruct x as [|c' x].
  - apply in_class_chr in Hc. cbn in Hlast. congruence.
  - apply star_app_local; [|done].
    rewrite last_cons_cons in Hlast. by apply (last_Exists _ z).
Qed.

Lemma once_chain c p b :
  c <> 32 ->
  (forall x, match_here p (x ++ 32 :: b) = match_here p x) ->
  forall x, match_here (Cls Once (Chr c) :: p) (x ++ 32 :: b)
            = match_here (Cls Once (Chr c) :: p) x.
Proof.
  intros Hc Hp [|y x]; cbn [app].
  - rewrite match_once_eq. cbn [in_class match_here].
    by destruct (N.eqb_spec 32 c).
  - by rewrite !match_once_eq, Hp.
Qed.

Lemma plus_not_space_chain b x :
  match_here [Cls Plus NotSpace] (x ++ 32 :: b)
  = match_here [Cls Plus NotSpace] x.
Proof.
  destruct x as [|y x]; cbn [app]; [done|].
  rewrite !match_plus_eq. destruct (in_class NotSpace y); [|done].
  f_equal. rewrite star_app_stop by done. by apply star_ext.
Qed.

Lemma email_local s b :
  Exists (fun c => isspace c = false) s ->
  match_here email_re (s ++ 32 :: b) = match_here email_re s.
Proof.
  intros Hs. rewrite email_re_unfold, !match_star_eq.
  apply star_app_local; [exact Hs|]. intros x _. revert x.
  do 6 (apply once_chain; [done|]). apply plus_not_space_chain.
Qed.

(** Where a match of the first two patterns starts. *)
Lemma lstrip_spaces ws s :
  Forall (fun c => in_class Space c = true) ws -> lstrip (ws ++ s) = lstrip s.
Proof.
  induction 1 as [|c ws Hc _ IH]; [done|]. cbn [app lstrip].
  cbn [in_class] in Hc. by rewrite Hc.
Qed.

Lemma open_paren_lstrip s r :
  match_here open_paren_re s = Some r -> exists rest, lstrip s = 40 :: rest.
Proof.
  rewrite open_paren_re_unfold.
  intros (ws & t & r1 & -> & Hws & Hm & _)%match_star.
  apply match_once in Hm as (c & t' & r2 & -> & ->%in_class_chr & _).
  exists t'. by rewrite lstrip_spaces.
Qed.

Lemma email_lstrip s r :
  match_here email_re s = Some r ->
  exists c rest, lstrip s = lit "email:" ++ c :: rest /\ isspace c = false.
Proof.
  rewrite email_re_unfold.
  intros (ws & t & r0 & -> & Hws & Hm & _)%match_star.
  apply match_once in Hm as (c1 & t1 & r1 & -> & ->%in_class_chr & Hm & _).
  apply match_once in Hm as (c2 & t2 & r2 & -> & ->%in_class_chr & Hm & _).
  apply match_once in Hm as (c3 & t3 & r3 & -> & ->%in_class_chr & Hm & _).
  apply match_once in Hm as (c4 & t4 & r4 & -> & ->%in_class_chr & Hm & _).
  apply match_once in Hm as (c5 & t5 & r5 & -> & ->%in_class_chr & Hm & _).
  apply match_once in Hm as (c6 & t6 & r6 & -> & ->%in_class_chr & Hm & _).
  apply match_plus in Hm as (c & pre & post & r7 & -> & Hc & _).
  exists c, (pre ++ post). split; [by rewrite lstrip_spaces|].
  cbn [in_class] in Hc. by apply negb_true_iff in Hc.
Qed.

(** The first text that is not empty is where a joined text begins, the
    spaces before it apart. *)
Lemma lstrip_join ts :
  Forall trimmed ts ->
  lstrip (join (lit " ") ts) = []
  \/ exists t rest,
       t ∈ ts /\ t <> [] /\ lstrip (join (lit " ") ts) = t ++ rest
       /\ (rest = [] \/ exists rest', rest = 32 :: rest').
Proof.
  induction ts as [|t [|t' ts] IH]; intros Hts; [by left|..].
  - apply Forall_cons in Hts as [[Hhead _] _].
    destruct t as [|c t]; [by left|]. right. exists (c :: t), [].
    split; [apply elem_of_cons; by left|]. split; [done|].
    cbn [join lstrip]. rewrite Hhead, app_nil_r. split; [done|by left].
  - apply Forall_cons in Hts as [[Hhead _] Hts].
    change (join (lit " ") (t :: t' :: ts))
      with (t ++ 32 :: join (lit " ") (t' :: ts)).
    destruct t as [|c t].
    + cbn [app lstrip]. change (isspace 32) with true. cbv iota.
      destruct (IH Hts) as [Hnil|(u & rest & Hu & Hne & Heq & Hrest)];
        [by left|].
      right. exists u, rest. split; [apply elem_of_cons; by right|done].
    + right. exists (c :: t), (32 :: join (lit " ") (t' :: ts)).
      split; [apply elem_of_cons; by left|]. split; [done|].
      cbn [app lstrip]. rewrite Hhead. split; [done|]. right. by eexists.
Qed.

Lemma prefix_before (p t rest : str) (x : N) :
  p `prefix_of` t ++ x :: rest -> x ∉ p -> p `prefix_of` t.
Proof.
  revert t. induction p as [|y p IH]; intros t Hp Hx; [apply prefix_nil|].
  apply not_elem_of_cons in Hx as [Hxy Hx].
  destruct t as [|z t].
  - destruct Hp as [k Hk]. cbn in Hk. congruence.
  - destruct Hp as [k Hk]. cbn in Hk. injection Hk as <- Hk.
    apply prefix_cons, IH; [by exists k|done].
Qed.

Lemma open_paren_not_at_space ts :
  Forall trimmed ts ->
  Forall (fun t => startswith t (lit "(") = false) ts ->
  match_here open_paren_re (32 :: join (lit " ") ts) = None.
Proof.
  intros Htrim Hopen.
  destruct (match_here _ _) as [r|] eqn:Hm; [exfalso|done].
  apply open_paren_lstrip in Hm as [rest Hm].
  cbn [lstrip] in Hm. change (isspace 32) with true in Hm. cbv iota in Hm.
  destruct (lstrip_join ts Htrim) as [Hnil|(t & k & Ht & Hne & Heq & _)];
    [congruence|].
  rewrite Heq in Hm. destruct t as [|c t]; [done|]. injection Hm as -> _.
  rewrite Forall_forall in Hopen. apply Hopen in Ht.
  apply bool_decide_eq_false in Ht. apply Ht. by exists t.
Qed.

Lemma email_start_intro c rest :
  isspace c = false -> email_start (lit "email:" ++ c :: rest) = true.
Proof.
  intros Hc. unfold email_start. apply andb_true_intro. split.
  - apply bool_decide_eq_true. by exists (c :: rest).
  - cbn. by rewrite Hc.
Qed.

Lemma email_not_at_space ts :
  Forall trimmed ts ->
  Forall (fun t => email_start t = false) ts ->
  match_here email_re (32 :: join (lit " ") ts) = None.
Proof.
  intros Htrim Hemail.
  destruct (match_here _ _) as [r|] eqn:Hm; [exfalso|done].
  apply email_lstrip in Hm as (c & rest & Hm & Hc).
  cbn [lstrip] in Hm. change (isspace 32) with true in Hm. cbv iota in Hm.
  destruct (lstrip_join ts Htrim) as [Hnil|(t & k & Ht & Hne & Heq & Hk)];
    [by rewrite Hnil in Hm|].
  rewrite Heq in Hm. rewrite Forall_forall in Hemail. apply Hemail in Ht.
  assert ((lit "email:" ++ [c]) `prefix_of` t) as [k' ->].
  { destruct Hk as [->|[k' ->]].
    - rewrite app_nil_r in Hm. subst t. exists rest. by rewrite <-app_assoc.
    - apply (prefix_before _ _ k' 32).
      + exists rest. by rewrite <-app_assoc.
      + intros Hin. apply elem_of_app in Hin as [Hin|Hin].
        * vm_compute in Hin. by repeat (apply elem_of_cons in Hin as [Hin|Hin];
            [discriminate Hin|]); apply elem_of_nil in Hin.
        * apply list_elem_of_singleton in Hin. by subst c. }
  rewrite <-app_assoc in Ht. cbn [app] in Ht.
  change (lit "email:" ++ c :: k') with (lit "email:" ++ c :: k') in Ht.
  by rewrite (email_start_intro c k' Hc) in Ht.
Qed.


(** What a substitution leaves at the two ends of a text. *)
Lemma sub_head p t c rest :
  sub p (lit ".") t = c :: rest -> c = 46 \/ exists t', t = c :: t'.
Proof.
  unfold sub. destruct t as [|x t]; cbn [sub_from].
  - destruct (match_here p []); [|done]. intros [= <- _]. by left.
  - destruct (match_here p (x :: t)) as [[[|k] ms]|]; intros [= <- _];
      [by left|by left|right; by eexists].
Qed.

Lemma sub_from_not_nil p s :
  s <> [] -> sub_from p (lit ".") 0 s <> [].
Proof.
  destruct s as [|c s]; [done|]. intros _. cbn [sub_from].
  by destruct (match_here p (c :: s)) as [[[|k] ms]|].
Qed.

Lemma sub_from_last p skip s x :
  last (sub_from p (lit ".") skip s) = Some x -> x = 46 \/ last s = Some x.
Proof.
  revert skip. induction s as [|c s IH]; intros skip; cbn [sub_from].
  - destruct skip, (match_here p []); try done; intros [= <-]; by left.
  - assert (forall k, last (sub_from p (lit ".") k s) = Some x ->
              x = 46 \/ last (c :: s) = Some x) as IH'.
    { intros k [?|Hs]%IH; [by left|right]. by rewrite last_cons, Hs. }
    assert (last (c :: sub_from p (lit ".") 0 s) = Some x ->
            x = 46 \/ last (c :: s) = Some x) as Hkeep.
    { rewrite last_cons.
      destruct (last (sub_from p (lit ".") 0 s)) as [y|] eqn:Hy;
        [intros [= ->]; by apply (IH' 0%nat)|].
      intros [= <-]. right. apply last_None in Hy.
      destruct s as [|c' s]; [done|]. by apply sub_from_not_nil in Hy. }
    destruct skip as [|k]; [|apply IH'].
    destruct (match_here p (c :: s)) as [[[|k] ms]|]; [| |exact Hkeep].
    + change (lit "." ++ ?l) with (46 :: l). by rewrite last_cons_cons.
    + change (lit "." ++ ?l) with (46 :: l). rewrite last_cons.
      destruct (last (sub_from p (lit ".") k s)) as [y|] eqn:Hy;
        [intros [= ->]; by apply (IH' k)|].
      intros [= <-]. by left.
Qed.

Lemma sub_trimmed p t : trimmed t -> trimmed (sub p (lit ".") t).
Proof.
  intros [Hhead Hlast]. split.
  - destruct (sub p (lit ".") t) as [|c rest] eqn:Hsub; [done|].
    apply sub_head in Hsub as [->|[t' ->]]; done.
  - destruct (last (sub p (lit ".") t)) as [x|] eqn:Hsub; [|done].
    apply sub_from_last in Hsub as [->|Hx]; [done|]. by rewrite Hx in Hlast.
Qed.

Lemma sub_not_open p t :
  startswith t (lit "(") = false ->
  startswith (sub p (lit ".") t) (lit "(") = false.
Proof.
  intros Ht. apply bool_decide_eq_false. intros [k Hk].
  apply sub_head in Hk as [?|[t' ->]]; [done|].
  apply bool_decide_eq_false in Ht. apply Ht. by exists t'.
Qed.

Lemma endswith_last (t : str) c :
  endswith t [c] = true <-> last t = Some c.
Proof.
  unfold endswith. rewrite bool_decide_eq_true. split.
  - intros [k ->]. apply last_snoc.
  - intros [k ->]%last_Some. by exists k.
Qed.

Lemma sub_not_closed p t :
  endswith t (lit ")") = false ->
  endswith (sub p (lit ".") t) (lit ")") = false.
Proof.
  change (lit ")") with [41]. intros Ht. apply not_true_iff_false.
  intros Hend.
  apply (endswith_last _ 41), sub_from_last in Hend as [?|Hend]; [done|].
  apply (endswith_last _ 41) in Hend. congruence.
Qed.

(** The text of a tag, stripped string by stripped string. *)
Lemma concat_trimmed (pieces : list str) :
  Forall (fun piece => piece <> [] /\ trimmed piece) pieces ->
  trimmed (concat pieces).
Proof.
  induction 1 as [|piece pieces [Hne [Hhead Hlast]] _ [IHhead IHlast]];
    [done|].
  cbn [concat]. split.
  - by destruct piece.
  - destruct (concat pieces) as [|c rest] eqn:Hrest.
    + by rewrite app_nil_r.
    + destruct (last (c :: rest)) as [z|] eqn:Hz; [|by apply last_None in Hz].
      apply last_Some in Hz as [k Hk]. by rewrite Hk, app_assoc, last_snoc.
Qed.

Lemma get_text_trimmed n : trimmed (get_text true n).
Proof.
  unfold get_text, all_strings. apply concat_trimmed.
  induction (descendants n) as [|d ds IH]; [constructor|].
  cbn [flat_map]. apply Forall_app. split; [|exact IH].
  destruct d as [? ? ?|k s]; [constructor|].
  destruct (interesting k); [|constructor].
  pose proof (strip_ends s) as Hends.
  destruct (strip s) as [|c t] eqn:Hs; [constructor|].
  constructor; [|constructor]. split; [done|exact Hends].
Qed.

Lemma forallb_Forall {A} (f : A -> bool) l :
  forallb f l = true -> Forall (fun x => f x = true) l.
Proof.
  induction l as [|x l IH]; cbn [forallb]; [constructor|].
  intros [? ?]%andb_true_iff. constructor; auto.
Qed.

(** Cleaning the joined texts is joining the cleaned texts, when no
    substitution can take a joining space with it. *)
Lemma clean_authors_join texts :
  Forall trimmed texts ->
  joins_cleanly texts = true ->
  clean_authors (join (lit " ") texts)
  = join (lit " ") (clean_authors <$> texts).
Proof.
  intros Htrim [Hstart Hend]%andb_true_iff.
  apply forallb_Forall in Hstart, Hend.
  assert (Forall trimmed (tail texts)) as Htail
    by (destruct texts; [done|by apply Forall_cons in Htrim as [_ ?]]).
  assert (Forall trimmed (removelast texts)) as Hinit.
  { apply Forall_forall. intros t Ht. rewrite Forall_forall in Htrim.
    apply Htrim. clear -Ht. induction texts as [|u [|u' texts] IH];
      [done|by apply elem_of_nil in Ht|].
    cbn [removelast] in Ht.
    apply elem_of_cons in Ht as [->|Ht]; [by left|right; by apply IH]. }
  unfold clean_authors.
  rewrite (sub_join email_re
             (fun t => trimmed t /\ email_start t = false) trimmed).
  2: reflexivity.
  2:{ intros t b pre s' Ht Hpre Hs'.
      destruct (suffix_not_blank t pre s' Ht Hpre Hs') as (z & Hz & _ & Hsp).
      apply email_local. by apply (last_Exists _ z). }
  2:{ intros ts Hts. apply email_not_at_space.
      - eapply Forall_impl; [exact Hts|]. by intros t [? _].
      - eapply Forall_impl; [exact Hts|]. by intros t [_ ?]. }
  2:{ apply Forall_and. split; [done|].
      eapply Forall_impl; [exact Hstart|]. cbn beta.
      intros t [_ Ht]%andb_true_iff.
      by apply negb_true_iff in Ht. }
  2: done.
  rewrite (sub_join open_paren_re
             (fun t => trimmed t /\ startswith t (lit "(") = false) trimmed).
  2: reflexivity.
  2:{ intros t b pre s' Ht Hpre Hs'.
      destruct (suffix_not_blank t pre s' Ht Hpre Hs') as (z & Hz & _ & Hsp).
      apply open_paren_local. by apply (last_Exists _ z). }
  2:{ intros ts Hts. apply open_paren_not_at_space.
      - eapply Forall_impl; [exact Hts|]. by intros t [? _].
      - eapply Forall_impl; [exact Hts|]. by intros t [_ ?]. }
  2:{ rewrite tail_fmap. apply Forall_fmap, Forall_and. split.
      - eapply Forall_impl; [exact Htail|]. intros t. apply sub_trimmed.
      - eapply Forall_impl; [exact Hstart|]. cbn beta.
        intros t [Ht _]%andb_true_iff.
        apply negb_true_iff in Ht. by apply sub_not_open. }
  2:{ rewrite removelast_fmap. apply Forall_fmap.
      eapply Forall_impl; [exact Hinit|]. intros t. apply sub_trimmed. }
  rewrite (sub_join close_paren_re (fun _ => True)
             (fun t => trimmed t /\ endswith t (lit ")") = false)).
  2: reflexivity.
  2:{ intros t b pre s' [Ht Hclosed] Hpre Hs'.
      destruct (suffix_not_blank t pre s' Ht Hpre Hs') as (z & Hz & Hlast & Hsp).
      apply (close_paren_local _ _ z); [done..|].
      intros ->. apply (endswith_last _ 41) in Hlast.
      change (lit ")") with [41] in Hclosed. congruence. }
  2:{ intros ts _. by rewrite close_paren_re_unfold. }
  2:{ by apply Forall_true. }
  2:{ rewrite !removelast_fmap. apply Forall_fmap, Forall_fmap, Forall_and.
      split.
      - eapply Forall_impl; [exact Hinit|]. intros t Ht.
        by apply sub_trimmed, sub_trimmed.
      - eapply Forall_impl; [exact Hend|]. cbn beta.
        intros t Ht%negb_true_iff.
        by apply sub_not_closed, sub_not_closed. }
  by rewrite <-!list_fmap_compose.
Qed.


(** The two date loops and the two DOI loops, by the labelled [div]s and
    the scripts in which a DOI is found. *)
Lemma staging_date_first divs :
  Staging.date_loop divs
  = match List.filter date_label divs with
    | [] => Ok None
    | div :: _ => Some <$> date_text div
    end.
Proof.
  induction divs as [|div divs IH]; [done|].
  cbn [Staging.date_loop List.filter]. by destruct (date_label div).
Qed.

Lemma staging_doi_first scripts :
  Staging.doi_loop scripts
  = match List.filter doi_hit scripts with
    | [] => None
    | script :: _ => doi_match script
    end.
Proof.
  induction scripts as [|script scripts IH]; [done|].
  cbn [Staging.doi_loop List.filter]. unfold doi_hit at 1.
  destruct (doi_script script), (doi_match script) eqn:Hm; done.
Qed.

Lemma in_memory_date_all divs acc :
  InMemory.date_loop divs acc
  = match mapM date_text (List.filter date_label divs) with
    | Ok dates =>
        Ok (match last dates with Some date => Some date | None => acc end)
    | Raise e => Raise e
    end.
Proof.
  revert acc. induction divs as [|div divs IH]; intros acc; [done|].
  cbn [InMemory.date_loop List.filter].
  destruct (date_label div); [|apply IH].
  cbn [mapM]. unfold mbind at 1 2, result_bind.
  destruct (date_text div) as [date|e]; [|done]. rewrite IH.
  unfold mbind, result_bind, mret, result_ret.
  destruct (mapM date_text (List.filter date_label divs)) as [dates|e]; [|done].
  rewrite last_cons. by destruct (last dates).
Qed.

Lemma in_memory_doi_last scripts acc :
  InMemory.doi_loop scripts acc
  = match last (List.filter doi_hit scripts) with
    | Some script => doi_match script
    | None => acc
    end.
Proof.
  revert acc. induction scripts as [|script scripts IH]; intros acc; [done|].
  cbn [InMemory.doi_loop List.filter]. unfold doi_hit at 1 3.
  destruct (doi_script script), (doi_match script) as [doi|] eqn:Hm;
    try apply IH.
  rewrite IH, last_cons.
  destruct (last (List.filter doi_hit scripts)) eqn:Hlast; [done|].
  by rewrite Hm.
Qed.

(** The date of a [div] raises exactly when its text has no colon. *)
Lemma date_text_raise_iff div e :
  date_text div = Raise e <-> e = IndexError /\ 58 ∉ get_text true div.
Proof.
  split.
  - intros Hraise. split; [by apply date_text_raises in Hraise|].
    intros (b & a & Hba & Hb)%elem_of_first.
    by rewrite (date_text_split div b a Hba Hb) in Hraise.
  - intros [-> Hno]. by apply date_text_no_colon.
Qed.

(** The date loop of the in-memory script raises exactly when some labelled
    [div] has no colon in its text. *)
Lemma in_memory_date_raise_iff divs acc e :
  InMemory.date_loop divs acc = Raise e <->
  e = IndexError
  /\ Exists (fun div => 58 ∉ get_text true div) (List.filter date_label divs).
Proof.
  revert acc. induction divs as [|div divs IH]; intros acc.
  - cbn. split; [done|]. by intros [_ ?%Exists_nil].
  - cbn [InMemory.date_loop List.filter].
    destruct (date_label div); [|apply IH].
    unfold mbind, result_bind. rewrite Exists_cons.
    destruct (date_text div) as [date|e0] eqn:Hdate.
    + rewrite IH. split; [intros [? ?]; by auto|].
      intros [-> [Hno|?]]; [|done].
      by rewrite (date_text_no_colon div Hno) in Hdate.
    + apply date_text_raise_iff in Hdate as [-> Hno]. split.
      * intros [= <-]. by auto.
      * by intros [-> _].
Qed.

End Joining.

(** C2 (as the code has it). For a page content with no carriage return and
    no surrogate, which the staging scripts write to [page_i.html] and read
    back as it was fetched, the five functions of the staging scripts
    return on the staged file the title, authors, date, DOI and abstract
    of the parse of that content.  The in-memory script returns a record
    with the same title and the same abstract, unless its date loop raises,
    in which case it returns no record; it raises, [IndexError], exactly
    when some labelled [div] has no colon in its text.  Authors: the
    staging scripts clean the text of each author element and join the
    cleaned texts with a space, the in-memory script joins the texts and
    cleans the joined text; the two are equal when there is at most one
    author element, and when no text but the last ends with a closing
    parenthesis and no text but the first begins with an opening
    parenthesis or with [email:] and a character that is not a space.
    Date: the staging scripts return the date of the first labelled [div],
    raising [IndexError] when its text has no colon; the in-memory script
    extracts the date of every labelled [div] in order, raising at the
    first one without a colon, and keeps the last; the two are equal when
    at most one [div] is labelled.  DOI: the staging scripts return the DOI
    of the first script, among those with the marker, in which one is
    found, the in-memory script that of the last; the two are equal when
    there is at most one such script. *)
Theorem variants_agree `{Collaborators} (i : nat) (html_content : str)
    (d : gmap str entry) :
  13 ∉ html_content ->
  forallb encodable html_content = true ->
  let file_path := path_join Staging.html_directory (Staging.page_file i) in
  let soup := BeautifulSoup html_content in
  let texts := get_text true <$> author_divs soup in
  let labelled := List.filter date_label (history_divs soup) in
  let hits := List.filter doi_hit (script_tags soup) in
  exists d1,
    open_write (Staging.page_file i) html_content d = (d1, Ok tt)
    /\ Staging.extract_title_from_html file_path d1 = (d1, Ok (title_of soup))
    /\ Staging.extract_authors_from_html file_path d1
       = (d1, Ok (Staging.authors_of soup))
    /\ Staging.extract_publication_date_from_html file_path d1
       = (d1, Staging.publication_date_of soup)
    /\ Staging.extract_doi_from_html file_path d1
       = (d1, Ok (Staging.doi_of soup))
    /\ Staging.extract_abstract_from_html file_path d1
       = (d1, Ok (abstract_of soup))
    /\ InMemory.extract_data_from_html html_content
       = match InMemory.date_loop (history_divs soup) None with
         | Ok date =>
             Ok {| Title := title_of soup;
                   Authors := InMemory.authors_of soup;
                   Publication_date := date;
                   DOI := InMemory.doi_loop (script_tags soup) None;
                   Abstract := abstract_of soup |}
         | Raise e => Raise e
         end
    /\ Staging.authors_of soup
       = match texts with
         | [] => None
         | _ :: _ => Some (join (lit " ") (clean_authors <$> texts))
         end
    /\ InMemory.authors_of soup
       = match texts with
         | [] => None
         | _ :: _ => Some (clean_authors (join (lit " ") texts))
         end
    /\ ((length texts <= 1)%nat \/ joins_cleanly texts = true ->
        InMemory.authors_of soup = Staging.authors_of soup)
    /\ Staging.publication_date_of soup
       = match labelled with
         | [] => Ok None
         | div :: _ => Some <$> date_text div
         end
    /\ InMemory.date_loop (history_divs soup) None
       = match mapM date_text labelled with
         | Ok dates => Ok (last dates)
         | Raise e => Raise e
         end
    /\ (forall div e,
          date_text div = Raise e
          <-> e = IndexError /\ 58 ∉ get_text true div)
    /\ (forall e,
          InMemory.date_loop (history_divs soup) None = Raise e
          <-> e = IndexError
              /\ Exists (fun div => 58 ∉ get_text true div) labelled)
    /\ ((length labelled <= 1)%nat ->
        InMemory.date_loop (history_divs soup) None
        = Staging.publication_date_of soup)
    /\ Staging.doi_of soup
       = match hits with
         | [] => None
         | script :: _ => doi_match script
         end
    /\ InMemory.doi_loop (script_tags soup) None
       = match last hits with
         | Some script => doi_match script
         | None => None
         end
    /\ ((length hits <= 1)%nat ->
        InMemory.doi_loop (script_tags soup) None = Staging.doi_of soup).
Proof.
  intros Hcr Henc file_path soup texts labelled hits.
  exists (<[Staging.page_file i := Utf8 html_content]> d).
  assert (Staging.open_soup file_path
            (<[Staging.page_file i := Utf8 html_content]> d)
          = (<[Staging.page_file i := Utf8 html_content]> d, Ok soup))
    as Hopen.
  { unfold soup. rewrite <-(universal_newlines_id html_content Hcr) at 3.
    apply open_soup_found. unfold file_path.
    by rewrite resolve_join, lookup_insert_eq. }
  assert (InMemory.authors_of soup
          = match texts with
            | [] => None
            | _ :: _ => Some (clean_authors (join (lit " ") texts))
            end) as Hmem.
  { unfold InMemory.authors_of, texts. by destruct (author_divs soup). }
  assert (Staging.authors_of soup
          = match texts with
            | [] => None
            | _ :: _ => Some (join (lit " ") (clean_authors <$> texts))
            end) as Hst.
  { rewrite staging_authors_cleaned. fold texts. by destruct texts. }
  split; [unfold open_write; by rewrite Henc, resolve_page_file|].
  unfold Staging.extract_title_from_html, Staging.extract_authors_from_html,
    Staging.extract_publication_date_from_html, Staging.extract_doi_from_html,
    Staging.extract_abstract_from_html, mbind, M_bind.
  rewrite Hopen. do 5 (split; [done|]).
  split; [|split; [exact Hst|split; [exact Hmem|split; [|split; [|split;
    [|split; [|split; [|split; [|split; [|split]]]]]]]]]].
  - unfold InMemory.extract_data_from_html, InMemory.extract_data.
    fold soup. unfold mbind, result_bind.
    by destruct (InMemory.date_loop (history_divs soup) None).
  - intros [Hone|Hclean].
    + symmetry. apply authors_of_one. unfold texts in Hone.
      by rewrite length_fmap in Hone.
    + rewrite Hmem, Hst. destruct texts as [|t ts] eqn:Htexts; [done|].
      f_equal. apply clean_authors_join; [|done].
      rewrite <-Htexts. unfold texts. apply Forall_fmap, Forall_true.
      intros div. apply get_text_trimmed.
  - apply staging_date_first.
  - rewrite in_memory_date_all. fold labelled.
    destruct (mapM date_text labelled) as [dates|e]; [|done].
    by destruct (last dates).
  - apply date_text_raise_iff.
  - intros e. apply in_memory_date_raise_iff.
  - apply date_loops_one.
  - apply staging_doi_first.
  - apply in_memory_doi_last.
  - apply doi_loops_one.
Qed.

Lemma variants_agree_witness :
  let C := Sample.collaborators Sample.toc in
  let html_content := Sample.article_markup "First article" in
  (exists d1 r,
     open_write (lit "page_1.html") html_content ∅ = (d1, Ok tt)
     /\ InMemory.extract_data_from_html html_content = Ok r
     /\ Staging.extract_title_from_html (lit "./page_1.html") d1
        = (d1, Ok (Title r))
     /\ Staging.extract_authors_from_html (lit "./page_1.html") d1
        = (d1, Ok (Authors r))
     /\ Staging.extract_publication_date_from_html (lit "./page_1.html") d1
        = (d1, Ok (Publication_date r))
     /\ Staging.extract_doi_from_html (lit "./page_1.html") d1
        = (d1, Ok (DOI r))
     /\ Staging.extract_abstract_from_html (lit "./page_1.html") d1
        = (d1, Ok (Abstract r)))
  /\ (length (author_divs Sample.two_plain_authors_soup) = 2%nat
      /\ InMemory.authors_of Sample.two_plain_authors_soup
         = Staging.authors_of Sample.two_plain_authors_soup).
Proof.
  intros C html_content. split.
  - destruct (@variants_agree C 1 html_content ∅)
      as (d1 & Hwrite & Htitle & Hauthors & Hdate & Hdoi & Habstract & Hmem
          & _ & _ & Hsame_authors & _ & _ & _ & _ & Hsame_date & _ & _
          & Hsame_doi).
    + refine (bool_decide_unpack _ _). vm_compute. exact I.
    + vm_compute. reflexivity.
    + rewrite Hsame_date in Hmem by (vm_compute; lia).
      rewrite Hsame_authors, Hsame_doi in Hmem
        by first [left; vm_compute; lia | vm_compute; lia].
      assert (exists date,
                Staging.publication_date_of (BeautifulSoup html_content)
                = Ok date) as [date Hok] by (eexists; vm_compute; reflexivity).
      rewrite Hok in Hmem, Hdate.
      exists d1. eexists. split; [exact Hwrite|]. split; [exact Hmem|].
      split; [exact Htitle|]. split; [exact Hauthors|]. split; [exact Hdate|].
      split; [exact Hdoi|exact Habstract].
  - split; [vm_compute; reflexivity|].
    destruct (@variants_agree
                {| goto := Sample.web Sample.toc;
                   BeautifulSoup := fun _ => Sample.two_plain_authors_soup;
                   listdir := fun d => elements (dom d);
                   to_csv := Sample.csv;
                   to_csv_partial := fun _ => [] |}
                1 (lit "<html></html>") ∅)
      as (_ & _ & _ & _ & _ & _ & _ & _ & _ & _ & Hsame_authors & _).
    + refine (bool_decide_unpack _ _). vm_compute. exact I.
    + vm_compute. reflexivity.
    + apply Hsame_authors. right. vm_compute. reflexivity.
Defined.

(** C2 as stated fails, field by field.  Authors: on
    [<div id='corresp1-1'>Jane Doe (Dept of Y)</div><div
    id='corresp1-2'>John Roe</div>] the staging scripts clean the two texts
    and join them with a space; the in-memory script joins them and then
    cleans, and the third substitution takes the joining space with the
    closing parenthesis.  Date and DOI: on a page with two labelled [div]s
    and two scripts with a DOI the staging scripts return those of the
    first ones, the in-memory script those of the last.  A title with a
    carriage return in it comes back from the staged file with a line feed
    in its place.  And a content with a surrogate in it is parsed by the
    in-memory script, while the staging scripts stop when they write it. *)
Lemma variants_differ :
  (Staging.authors_of Sample.two_authors_soup
   = Some (lit "Jane Doe.Dept of Y. John Roe")
   /\ Authors <$> InMemory.extract_data Sample.two_authors_soup
      = Ok (Some (lit "Jane Doe.Dept of Y.John Roe")))
  /\ (Staging.publication_date_of Sample.two_dates_soup
      = Ok (Some (lit "5 January 2024"))
      /\ Publication_date <$> InMemory.extract_data Sample.two_dates_soup
         = Ok (Some (lit "7 March 2024")))
  /\ (Staging.doi_of Sample.two_dates_soup = Some (lit "10.1177/1")
      /\ DOI <$> InMemory.extract_data Sample.two_dates_soup
         = Ok (Some (lit "10.1177/2")))
  /\ (let C := Sample.collaborators_cr in
      snd (Staging.extract_title_from_html (lit "./page_1.html")
             (fst (open_write (lit "page_1.html") Sample.cr_markup ∅)))
      = Ok (Some [65; 10; 66])
      /\ Title <$> InMemory.extract_data_from_html Sample.cr_markup
         = Ok (Some [65; 13; 66]))
  /\ (let C := Sample.collaborators Sample.toc in
      open_write (lit "page_1.html") [55296] ∅
      = ({[ lit "page_1.html" := Utf8 [] ]}, Raise UnicodeEncodeError)
      /\ Title <$> InMemory.extract_data_from_html [55296] = Ok None).
Proof. vm_compute. repeat split; reflexivity. Qed.

(** X9. The DOI that is found stands in the text of the script between two
    single quotes; it is not empty and holds no single quote. *)
Theorem doi_match_quoted (script : node) (doi : str) :
  doi_match script = Some doi ->
  doi <> [] /\ (39 ∉ doi)
  /\ exists head rest,
       tag_string script = Some (head ++ 39 :: doi ++ 39 :: rest).
Proof.
  unfold doi_match. destruct (tag_string script) as [s|]; [|done].
  unfold group1.
  destruct (search doi_re s) as [[i [n ms]]|] eqn:Hsearch; [|done].
  apply search_match, doi_re_match in Hsearch
    as (head & body & rest & Hdrop & Hne & Hquote & Hms).
  cbn [snd] in Hms. subst ms.
  assert (take (S (length head) + length body - S (length head))
            (drop (i + S (length head)) s) = body) as Hgroup.
  { replace (S (length head) + length body - S (length head))%nat
      with (length body) by lia.
    replace (i + S (length head))%nat with (i + (length head + 1))%nat by lia.
    rewrite <-!drop_drop, Hdrop, drop_app_length. cbn [drop].
    apply take_app_length. }
  rewrite Hgroup. intros [= <-]. split; [done|]. split; [done|].
  exists (take i s ++ head), rest.
  by rewrite <-(take_drop i s) at 1; rewrite Hdrop, <-app_assoc.
Qed.

Lemma doi_match_quoted_witness :
  lit "10.1177/0025149241234567" <> []
  /\ (39 ∉ lit "10.1177/0025149241234567")
  /\ exists head rest,
       Some Sample.doi_script_text
       = Some (head ++ 39 :: lit "10.1177/0025149241234567" ++ 39 :: rest).
Proof.
  apply (doi_match_quoted
           (Sample.elem "script" [] [Text Script Sample.doi_script_text])).
  vm_compute. reflexivity.
Defined.

(** X10. Cleaning never makes an authors text longer: what a pattern matches is
    one character at least, and it becomes one period. *)
Theorem clean_authors_length (s : str) :
  (length (clean_authors s) <= length s)%nat.
Proof.
  destruct patterns_take_a_character as (Hemail & Hopen & Hclose).
  unfold clean_authors, sub.
  etrans; [apply sub_from_length; [reflexivity|exact Hclose]|].
  etrans; [apply sub_from_length; [reflexivity|exact Hopen]|].
  apply sub_from_length; [reflexivity|exact Hemail].
Qed.

(** ** Runs that fail, and what a run leaves alone *)

Section Outcomes.
Context `{Collaborators}.

Lemma Forall2_impl_elem {A B} (P Q : A -> B -> Prop) l k :
  Forall2 P l k ->
  (forall x y, x ∈ l -> P x y -> Q x y) ->
  Forall2 Q l k.
Proof.
  induction 1 as [|x y l k Hxy _ IH]; intros Himpl; constructor.
  - apply Himpl; [apply elem_of_cons; by left|done].
  - apply IH. intros x' y' Hx'. apply Himpl, elem_of_cons. by right.
Qed.

(** The first loop up to a navigation that fails: the pages fetched before
    it are in the directory. *)
Lemma stage_raise i pre href post pages e d :
  Forall2 (fun h p => goto (base_url ++ h) = Ok p) pre pages ->
  Forall (fun p => forallb encodable (content p) = true) pages ->
  goto (base_url ++ href) = Raise e ->
  Staging.stage i (pre ++ href :: post) d
  = (staged i (content <$> pages) d, Raise e).
Proof.
  intros Hpre Henc Hfail. revert i d.
  induction Hpre as [|h p pre pages Hp _ IH]; intros i d.
  - cbn [app Staging.stage]. unfold mbind, M_bind, Staging.process_page, lift.
    by rewrite Hfail.
  - apply Forall_cons in Henc as [Hpenc Henc].
    cbn [app Staging.stage fmap list_fmap staged].
    unfold mbind, M_bind, Staging.process_page, lift, open_write.
    rewrite Hp. unfold fmap, result_fmap. cbn beta iota zeta.
    rewrite resolve_page_file, Hpenc. by apply IH.
Qed.

(** A first loop whose navigations all succeed, on pages that can all be
    encoded. *)
Lemma stage_succeed i hrefs pages d :
  Forall2 (fun href p => goto (base_url ++ href) = Ok p) hrefs pages ->
  Forall (fun p => forallb encodable (content p) = true) pages ->
  Staging.stage i hrefs d = (staged i (content <$> pages) d, Ok tt).
Proof.
  intros Hpages. revert i d.
  induction Hpages as [|href p hrefs pages Hp _ IH]; intros i d Henc; [done|].
  apply Forall_cons in Henc as [Hpenc Henc].
  cbn [Staging.stage fmap list_fmap staged].
  unfold mbind, M_bind, Staging.process_page, lift, open_write.
  rewrite Hp. unfold fmap, result_fmap. cbn beta iota zeta.
  rewrite resolve_page_file, Hpenc. by apply IH.
Qed.

(** Whatever its outcome, the first loop writes [page_i.html] files only. *)
Lemma stage_frame i hrefs d d1 r f :
  Staging.stage i hrefs d = (d1, r) ->
  is_html f = false -> d1 !! f = d !! f.
Proof.
  intros Hrun Hf. revert i d Hrun.
  induction hrefs as [|href hrefs IH]; intros i d Hrun.
  - by injection Hrun as <- _.
  - cbn [Staging.stage] in Hrun.
    unfold mbind, M_bind, Staging.process_page, lift, open_write in Hrun.
    destruct (goto (base_url ++ href)) as [p|e]; [|by injection Hrun as <- _].
    unfold fmap, result_fmap in Hrun. cbn beta iota zeta in Hrun.
    rewrite resolve_page_file in Hrun.
    assert (Staging.page_file i <> f) as Hne
      by (intros <-; by rewrite page_file_is_html in Hf).
    destruct (forallb encodable (content p)).
    + apply IH in Hrun. rewrite Hrun. by apply lookup_insert_ne.
    + injection Hrun as <- _. by apply lookup_insert_ne.
Qed.

(** The body of the second loop in all its outcomes. *)
Lemma extract_file_outcome filename data d :
  (is_html filename = false
   /\ Staging.extract_file filename data d = (d, Ok data))
  \/ (is_html filename = true /\ d !! filename = None
      /\ Staging.extract_file filename data d = (d, Raise FileNotFoundError))
  \/ (is_html filename = true /\ d !! filename = Some NotUtf8
      /\ Staging.extract_file filename data d = (d, Raise UnicodeDecodeError))
  \/ (exists markup,
        is_html filename = true /\ d !! filename = Some (Utf8 markup)
        /\ ((exists r,
               staged_record (BeautifulSoup (universal_newlines markup)) = Ok r
               /\ Staging.extract_file filename data d
                  = (delete filename d, Ok (append_if_title data r)))
            \/ (staged_record (BeautifulSoup (universal_newlines markup))
                = Raise IndexError
                /\ Staging.extract_file filename data d
                   = (d, Raise IndexError)))).
Proof.
  destruct (is_html filename) eqn:Hf;
    [|left; split; [done|by apply extract_file_other]].
  right. destruct (d !! filename) as [[markup|]|] eqn:Hd.
  - right. right. exists markup. split; [done|]. split; [done|].
    rewrite (extract_file_html filename data d markup Hf Hd).
    destruct (staged_record (BeautifulSoup (universal_newlines markup)))
      as [r|e] eqn:Hr.
    + left. by exists r.
    + right. by apply staged_record_raises in Hr as ->.
  - right. left. repeat split. by apply extract_file_undecodable.
  - left. repeat split. by apply extract_file_missing.
Qed.

(** Whatever its outcome, the second loop changes [.html] files only. *)
Lemma extract_files_frame names data d d' r f :
  Staging.extract_files names data d = (d', r) ->
  is_html f = false -> d' !! f = d !! f.
Proof.
  intros Hrun Hf. revert data d Hrun.
  induction names as [|g names IH]; intros data d Hrun.
  - by injection Hrun as <- _.
  - cbn [Staging.extract_files] in Hrun. unfold mbind, M_bind in Hrun.
    destruct (extract_file_outcome g data d)
      as [[_ Hg]|[(_ & _ & Hg)|[(_ & _ & Hg)
                                |(m & Hg1 & _ & [(r0 & _ & Hg)|[_ Hg]])]]];
      rewrite Hg in Hrun.
    + by apply IH in Hrun.
    + by injection Hrun as <- _.
    + by injection Hrun as <- _.
    + apply IH in Hrun. rewrite Hrun. apply lookup_delete_ne.
      intros <-. congruence.
    + by injection Hrun as <- _.
Qed.


End Outcomes.

(** X11. When the navigation to a link fails in the staging scripts, the
    pages of the links before it having been fetched and written (their
    contents can be encoded), the run stops with that error; these pages
    stay in the working directory as [page_1.html], [page_2.html], ...,
    nothing is removed and no table is written. *)
Theorem staging_fetch_failure `{Collaborators} (main_page : page)
    (pre post : list str) (href : str) (pages : list page) (e : exn)
    (d : gmap str entry) :
  goto toc_url = Ok main_page ->
  extract_links main_page = pre ++ href :: post ->
  Forall2 (fun h p => goto (base_url ++ h) = Ok p) pre pages ->
  Forall (fun p => forallb encodable (content p) = true) pages ->
  goto (base_url ++ href) = Raise e ->
  Staging.main d = (staged 1 (content <$> pages) d, Raise e)
  /\ (forall k p, pages !! k = Some p ->
        staged 1 (content <$> pages) d !! Staging.page_file (1 + k)
        = Some (Utf8 (content p)))
  /\ staged 1 (content <$> pages) d !! csv_path = d !! csv_path.
Proof.
  intros Hmain Hlinks Hpre Henc Hfail. split; [|split].
  - rewrite staging_main_unfold.
    unfold Staging.collect, mbind, M_bind, lift.
    by rewrite Hmain, Hlinks,
      (stage_raise 1 pre href post pages e d Hpre Henc Hfail).
  - intros k p Hk. apply staged_lookup. by rewrite list_lookup_fmap, Hk.
  - apply staged_other. intros k _ Hk.
    pose proof (page_file_is_html k) as Hhtml. by rewrite <-Hk in Hhtml.
Qed.

Lemma staging_fetch_failure_witness :
  let C := Sample.collaborators
             {| page_dom :=
                  Sample.document
                    [Sample.elem "a" [("href", "/doi/abs/10.1177/a")] [];
                     Sample.elem "a" [("href", "/doi/abs/10.1177/x")] []];
                content := lit "" |} in
  Staging.main ∅
  = ({[ lit "page_1.html" := Utf8 (Sample.article_markup "First article") ]},
     Raise (PlaywrightError (lit "net::ERR_NAME_NOT_RESOLVED"))).
Proof.
  intros C.
  refine (eq_trans
            (proj1 (@staging_fetch_failure C _ [lit "/doi/abs/10.1177/a"] []
                      (lit "/doi/abs/10.1177/x")
                      [Sample.rendered (Sample.article_markup "First article")]
                      (PlaywrightError (lit "net::ERR_NAME_NOT_RESOLVED")) ∅
                      _ _ _ _ _)) _).
  - vm_compute. reflexivity.
  - vm_compute. reflexivity.
  - repeat constructor.
  - repeat constructor.
  - vm_compute. reflexivity.
  - vm_compute. reflexivity.
Defined.

(** X12. When the navigation to a link fails in the in-memory script, the pages
    before it having been parsed, the run stops with that error and the
    working directory is as it was: no table is written. *)
Theorem in_memory_fetch_failure `{Collaborators} (main_page : page)
    (pre post : list str) (href : str) (pages : list page)
    (recs : list ArticleRecord) (e : exn) (d : gmap str entry) :
  goto toc_url = Ok main_page ->
  extract_links main_page = pre ++ href :: post ->
  Forall2 (fun h p => goto (base_url ++ h) = Ok p) pre pages ->
  Forall2 (fun p r => InMemory.extract_data_from_html (content p) = Ok r)
    pages recs ->
  goto (base_url ++ href) = Raise e ->
  InMemory.main d = (d, Raise e).
Proof.
  intros Hmain Hlinks Hpre Hrecs Hfail. rewrite in_memory_main_unfold.
  unfold InMemory.collect, mbind, result_bind. rewrite Hmain, Hlinks.
  clear Hmain Hlinks.
  generalize (@nil ArticleRecord) as data. revert recs Hrecs.
  induction Hpre as [|h p pre pages Hp _ IH]; intros recs Hrecs data.
  - cbn [app InMemory.visit]. unfold mbind, result_bind. by rewrite Hfail.
  - apply Forall2_cons_inv_l in Hrecs as (r & recs' & Hr & Hrecs & ->).
    cbn [app InMemory.visit]. unfold mbind, result_bind. rewrite Hp, Hr.
    specialize (IH recs' Hrecs (append_if_title data r)).
    by destruct (InMemory.visit _ _).
Qed.

Lemma in_memory_fetch_failure_witness :
  let C := Sample.collaborators
             {| page_dom :=
                  Sample.document
                    [Sample.elem "a" [("href", "/doi/abs/10.1177/a")] [];
                     Sample.elem "a" [("href", "/doi/abs/10.1177/x")] []];
                content := lit "" |} in
  InMemory.main Sample.old_dir
  = (Sample.old_dir, Raise (PlaywrightError (lit "net::ERR_NAME_NOT_RESOLVED"))).
Proof.
  intros C.
  eapply (@in_memory_fetch_failure C _ [lit "/doi/abs/10.1177/a"] []
            (lit "/doi/abs/10.1177/x")
            [Sample.rendered (Sample.article_markup "First article")]
            [_]).
  - vm_compute. reflexivity.
  - vm_compute. reflexivity.
  - repeat constructor.
  - repeat constructor.
  - vm_compute. reflexivity.
Defined.

(** X13. Whatever the outcome of a run of the staging scripts, a file whose
    name does not end in [.html] and is not [scraped_data.csv] is as it
    was; and the two loops leave [scraped_data.csv] as it was, so that it is
    the export alone that writes it. *)
Theorem staging_frame `{Collaborators} (d d' : gmap str entry)
    (r : result unit) :
  Staging.main d = (d', r) ->
  (forall f, is_html f = false -> f <> csv_path -> d' !! f = d !! f)
  /\ fst (Staging.collect d) !! csv_path = d !! csv_path.
Proof.
  rewrite staging_main_unfold.
  assert (forall d2 r2 f, Staging.collect d = (d2, r2) ->
            is_html f = false -> d2 !! f = d !! f) as Hcollect.
  { intros d2 r2 f Hrun Hf.
    unfold Staging.collect, mbind, M_bind, lift in Hrun.
    destruct (goto toc_url) as [main_page|e]; [|by injection Hrun as <- _].
    destruct (Staging.stage 1 (extract_links main_page) d)
      as [d1 [[]|e]] eqn:Hst.
    - rewrite (extract_files_frame _ _ _ _ _ f Hrun Hf).
      by apply (stage_frame _ _ _ _ _ f Hst).
    - injection Hrun as <- _. by apply (stage_frame _ _ _ _ _ f Hst). }
  destruct (Staging.collect d) as [d2 [data|e]] eqn:Hrun; intros Hmain.
  - split; [|by apply (Hcollect d2 (Ok data))]. intros f Hf Hcsv.
    rewrite (export_frame _ _ _ _ f Hmain Hcsv).
    by apply (Hcollect d2 (Ok data)).
  - injection Hmain as <- <-.
    split; [intros f Hf _|]; by apply (Hcollect d2 (Raise e)).
Qed.

Lemma staging_frame_witness :
  let C := Sample.collaborators Sample.toc in
  fst (Staging.main Sample.old_dir) !! lit "notes.txt"
  = Some (Utf8 (lit "to do")).
Proof.
  intros C.
  destruct (@staging_frame C Sample.old_dir
              (fst (Staging.main Sample.old_dir))
              (snd (Staging.main Sample.old_dir))) as [Hframe _].
  - by destruct (Staging.main Sample.old_dir).
  - rewrite Hframe; vm_compute; [reflexivity..|discriminate].
Defined.



(** ** The two drivers side by side *)

Section Agreement.
Context `{Collaborators}.

(** A second loop whose [.html] names are distinct, there, and parsed
    without exception. *)
Lemma extract_files_succeed names data d recs :
  NoDup (List.filter is_html names) ->
  Forall2 (fun f r => exists m,
             d !! f = Some (Utf8 m)
             /\ staged_record (BeautifulSoup (universal_newlines m)) = Ok r)
          (List.filter is_html names) recs ->
  exists d',
    Staging.extract_files names data d
    = (d', Ok (data ++ List.filter has_title recs)).
Proof.
  revert data d recs.
  induction names as [|f names IH]; intros data d recs Hnodup Hrecs.
  - apply Forall2_nil_inv_l in Hrecs as ->. exists d.
    cbn. by rewrite app_nil_r.
  - cbn [List.filter Staging.extract_files] in *. unfold mbind, M_bind.
    destruct (is_html f) eqn:Hf.
    + apply NoDup_cons in Hnodup as [Hfresh Hnodup].
      apply Forall2_cons_inv_l in Hrecs
        as (r & recs' & (m & Hm & Hr) & Hrecs & ->).
      rewrite (extract_file_html f data d m Hf Hm), Hr.
      destruct (IH (append_if_title data r) (delete f d) recs' Hnodup)
        as [d' Hrun].
      { eapply Forall2_impl_elem; [exact Hrecs|].
        intros g r' Hg (m' & Hm' & Hr'). exists m'. split; [|done].
        rewrite lookup_delete_ne; [done|]. by intros <-. }
      exists d'. rewrite Hrun. do 2 f_equal.
      unfold append_if_title, has_title. cbn [List.filter].
      destruct (truthy (Title r)); [by rewrite <-app_assoc|done].
    + rewrite extract_file_other by done. by apply IH.
Qed.

Lemma page_files_lookup n k :
  (k < n)%nat ->
  (Staging.page_file <$> seq 1 n) !! k = Some (Staging.page_file (1 + k)).
Proof.
  intros Hk. rewrite list_lookup_fmap, lookup_seq_lt by done. done.
Qed.

End Agreement.

(** X16. The in-memory script exports at most one record for each link of the
    listing page. *)
Theorem in_memory_rows_bound `{Collaborators} (main_page : page)
    (data : list ArticleRecord) :
  goto toc_url = Ok main_page ->
  InMemory.collect = Ok data ->
  (length data <= length (extract_links main_page))%nat.
Proof.
  intros Hmain. unfold InMemory.collect, mbind, result_bind. rewrite Hmain.
  intros (pages & recs & Hpages & Hrecs & ->)%visit_ok.
  apply Forall2_length in Hpages, Hrecs. rewrite Hpages, Hrecs.
  apply List.filter_length_le.
Qed.

Lemma in_memory_rows_bound_witness :
  let C := Sample.collaborators Sample.toc in
  exists data, InMemory.collect = Ok data /\ (length data <= 3)%nat.
Proof.
  intros C.
  assert (exists data, @InMemory.collect C = Ok data) as [data Hrun]
    by (eexists; vm_compute; reflexivity).
  exists data. split; [exact Hrun|].
  apply (@in_memory_rows_bound C Sample.toc data); [|exact Hrun].
  vm_compute. reflexivity.
Defined.

(** X17. When no page has a carriage return or a surrogate in its content
    (so that each staged file is read back as the content that was
    written), the directory listing after the first loop has the staged
    files, in the order of their indices, as its only [.html] names, and
    every page has at most one author element, one labelled [div] and one
    script with a DOI, the staging scripts end their two loops well exactly
    when the in-memory script ends its loop well, and they hand the same
    list of records to the exporter. *)
Theorem staging_matches_in_memory `{Collaborators} (main_page : page)
    (d : gmap str entry) (data : list ArticleRecord) :
  goto toc_url = Ok main_page ->
  (forall contents,
     length contents = length (extract_links main_page) ->
     List.filter is_html (listdir (staged 1 contents d))
     = Staging.page_file <$> seq 1 (length contents)) ->
  (forall href p,
     href ∈ extract_links main_page -> goto (base_url ++ href) = Ok p ->
     (13 ∉ content p)
     /\ forallb encodable (content p) = true
     /\ (length (author_divs (BeautifulSoup (content p))) <= 1)%nat
     /\ (length (List.filter date_label
                   (history_divs (BeautifulSoup (content p)))) <= 1)%nat
     /\ (length (List.filter doi_hit
                   (script_tags (BeautifulSoup (content p)))) <= 1)%nat) ->
  (exists d', Staging.collect d = (d', Ok data))
  <-> InMemory.collect = Ok data.
Proof.
  intros Hmain Horder Hone.
  assert (forall pages,
            Forall2 (fun href p => goto (base_url ++ href) = Ok p)
              (extract_links main_page) pages ->
            Forall (fun p => forallb encodable (content p) = true) pages
            /\ forall recs,
                 Forall2 (fun f r => exists m,
                            staged 1 (content <$> pages) d !! f = Some (Utf8 m)
                            /\ staged_record
                                 (BeautifulSoup (universal_newlines m)) = Ok r)
                   (Staging.page_file <$> seq 1 (length pages)) recs
                 <-> Forall2 (fun p r =>
                                InMemory.extract_data_from_html (content p)
                                = Ok r)
                       pages recs) as Hsame.
  { intros pages Hpages.
    assert (forall k p, pages !! k = Some p ->
              forallb encodable (content p) = true
              /\ universal_newlines (content p) = content p
              /\ InMemory.extract_data_from_html (content p)
                 = staged_record (BeautifulSoup (content p))
              /\ staged 1 (content <$> pages) d !! Staging.page_file (1 + k)
                 = Some (Utf8 (content p))) as Hpage.
    { intros k p Hk.
      destruct (Forall2_lookup_r _ _ _ _ _ Hpages Hk) as (href & Hhref & Hgoto).
      destruct (Hone href p) as (Hcr & Henc & Ha & Hd & Hs);
        [by eapply list_elem_of_lookup_2|done|].
      split; [done|]. split; [by apply universal_newlines_id|].
      split; [by apply extract_data_staged_record|].
      apply staged_lookup. by rewrite list_lookup_fmap, Hk. }
    split.
    { apply Forall_lookup. intros k p Hk. by destruct (Hpage k p Hk). }
    intros recs.
    rewrite !Forall2_same_length_lookup, length_fmap, length_seq.
    split; intros [Hlen Hall]; (split; [done|]).
    - intros k p r Hp Hr. destruct (Hpage k p Hp) as (_ & Hnl & -> & Hfile).
      destruct (Hall k (Staging.page_file (1 + k)) r) as (m & Hm & Hrec);
        [apply page_files_lookup; by eapply lookup_lt_Some|done|].
      assert (m = content p) as -> by congruence. by rewrite Hnl in Hrec.
    - intros k f r Hf Hr.
      assert (k < length pages)%nat as Hk
        by (apply lookup_lt_Some in Hf; by rewrite length_fmap, length_seq in Hf).
      rewrite (page_files_lookup _ _ Hk) in Hf. injection Hf as <-.
      destruct (lookup_lt_is_Some_2 pages k Hk) as [p Hp].
      destruct (Hpage k p Hp) as (_ & Hnl & Heq & Hfile).
      exists (content p). split; [done|]. rewrite Hnl, <-Heq.
      by apply (Hall k). }
  split.
  - intros [d' Hrun].
    apply staging_collect_ok in Hrun
      as (main_page' & pages & recs & Hmain' & Hpages & Hrecs & -> & _).
    assert (main_page' = main_page) as -> by congruence.
    cbn zeta in Hrecs. rewrite Horder in Hrecs
      by (rewrite length_fmap; symmetry; by eapply Forall2_length).
    rewrite length_fmap in Hrecs.
    destruct (Hsame pages Hpages) as [_ Hiff]. apply Hiff in Hrecs.
    unfold InMemory.collect, mbind, result_bind. rewrite Hmain.
    apply visit_ok. by exists pages, recs.
  - unfold InMemory.collect, mbind, result_bind. rewrite Hmain.
    intros (pages & recs & Hpages & Hrecs & ->)%visit_ok.
    destruct (Hsame pages Hpages) as [Henc Hiff]. apply Hiff in Hrecs.
    destruct (extract_files_succeed
                (listdir (staged 1 (content <$> pages) d)) []
                (staged 1 (content <$> pages) d) recs) as [d' Hrun].
    + rewrite Horder
        by (rewrite length_fmap; symmetry; by eapply Forall2_length).
      apply NoDup_fmap_2; [intros i j; apply page_file_eq|apply NoDup_seq].
    + rewrite Horder
        by (rewrite length_fmap; symmetry; by eapply Forall2_length).
      by rewrite length_fmap.
    + exists d'. unfold Staging.collect, mbind, M_bind, lift.
      by rewrite Hmain, (stage_succeed 1 _ pages d Hpages Henc).
Qed.

Lemma staging_matches_in_memory_witness :
  let C := Sample.collaborators_rev Sample.toc in
  exists data,
    InMemory.collect = Ok data
    /\ exists d', Staging.collect ∅ = (d', Ok data).
Proof.
  intros C.
  assert (exists data, @InMemory.collect C = Ok data) as [data Hrun]
    by (eexists; vm_compute; reflexivity).
  exists data. split; [exact Hrun|].
  apply (@staging_matches_in_memory C Sample.toc ∅ data); [| | |exact Hrun].
  - vm_compute. reflexivity.
  - intros [|a [|b [|c [|? ?]]]] Hlen; try discriminate Hlen.
    vm_compute. reflexivity.
  - intros href p Hhref Hp.
    change (extract_links Sample.toc)
      with [lit "/doi/abs/10.1177/a"; lit "/doi/abs/10.1177/n";
            lit "/doi/abs/10.1177/b"] in Hhref.
    repeat (apply elem_of_cons in Hhref as [->|Hhref]);
      [..|by apply elem_of_nil in Hhref];
      vm_compute in Hp; injection Hp as <-;
      (split; [refine (bool_decide_unpack _ _); vm_compute; exact I|]);
      (split; [vm_compute; reflexivity|]);
      vm_compute; lia.
Defined.

Section Success.
Context `{Collaborators}.



End Success.


